(** * Store API: a shallow embedding of the product CRUD service

    The service keeps product documents in one MongoDB collection and exposes
    list / get / create / update / delete over HTTP.  The embedding follows
    the source file section by section: the collection handle
    ([db_products]), the validation schemas, the CRUD functions and the
    routers.  The database driver, the validation library and the web
    framework are not part of the repository; the parts of their behaviour
    the program relies on are modelled next to the place where the source
    calls them, and each such model says what it stands for. *)

From Stdlib Require Import QArith.
From Stdlib Require Import Ascii HexString.
From stdpp Require Import base option list sorting gmap strings.

Local Open Scope Z_scope.
Local Open Scope stdpp_scope.

(** ** Python values and exceptions *)

(** The values carried by a product document.  A Python [float] is kept as
    the rational it denotes: the program compares prices with zero and
    copies them, and does no arithmetic on them.  Only finite floats have a
    place here; infinities and NaN are outside the model. *)
Inductive value :=
  | VNone
  | VStr (s : string)
  | VFloat (x : Q)
  | VBool (b : bool).

(** The keys of the dicts that the schemas produce and the collection stores
    (next to [_id], which [document] keeps apart). *)
Inductive field := Name | Description | Price | In_stock.

Global Instance field_eq_dec : EqDecision field.
Proof. solve_decision. Defined.

Global Instance field_countable : Countable field.
Proof.
  refine (inj_countable'
    (λ f, match f with Name => 0 | Description => 1 | Price => 2 | In_stock => 3 end)%nat
    (λ n, match n with 0 => Name | 1 => Description | 2 => Price | _ => In_stock end)%nat
    _).
  by intros [].
Defined.

Definition field_name (f : field) : string :=
  match f with
  | Name => "name"
  | Description => "description"
  | Price => "price"
  | In_stock => "in_stock"
  end.

(** One entry of a validation error: which field failed, and why. *)
Inductive error_type := Missing | NoneNotAllowed | WrongType | NotGt0.

Definition error : Type := field * error_type.

Inductive exn :=
  | InvalidId (oid : string)           (* bson.errors.InvalidId *)
  | KeyError (k : field)
  | TypeError                          (* subscripting None *)
  | HTTPException (status_code : nat) (detail : string)
  | ValidationError (errors : list error).

Inductive result (A : Type) :=
  | Ok (a : A)
  | Raise (e : exn).
Arguments Ok {A} a.
Arguments Raise {A} e.

Global Instance result_ret : MRet result := λ A a, Ok a.
Global Instance result_bind : MBind result := λ A B k r,
  match r with
  | Ok a => k a
  | Raise e => Raise e
  end.

(** ** bson.ObjectId *)

(** An ObjectId is twelve bytes, kept here as the number they spell.
    [ObjectId.parse] is the constructor [ObjectId(id)] applied to a [str]:
    a string of 24 hexadecimal digits gives the identifier it spells, and
    any other string raises [InvalidId] (in particular every string whose
    length is not 24).  [ObjectId.str] is [str(oid)], the 24 lower-case
    hexadecimal digits of the value.  The statements below depend on [parse]
    only through its answer on the id at hand.  (A 24-character string with
    ASCII whitespace between pairs of digits is read by the driver as a
    shorter identifier, which no stored document carries; [parse] raises
    [InvalidId] for it.) *)
Module ObjectId.

Abbreviation t := N.

Definition is_hex (c : ascii) : bool :=
  match HexString.ascii_to_digit c with Some _ => true | None => false end.

Fixpoint all_hex (s : string) : bool :=
  match s with
  | EmptyString => true
  | String c s' => is_hex c && all_hex s'
  end.

Definition parse (id : string) : result t :=
  if (String.length id =? 24)%nat && all_hex id
  then Ok (HexString.Raw.to_N id 0%N)
  else Raise (InvalidId id).

Definition hex (oid : t) : string :=
  match oid with
  | N0 => EmptyString
  | Npos p => HexString.Raw.of_pos p EmptyString
  end.

Fixpoint zeros (n : nat) (s : string) : string :=
  match n with
  | O => s
  | S n' => String "0" (zeros n' s)
  end.

Definition str (oid : t) : string :=
  let digits := hex oid in
  zeros (24 - String.length digits) digits.

End ObjectId.

(** ** app/database.py: the collection *)

Record document := {
  _id : ObjectId.t;
  fields : gmap field value;
}.

(** The writes sent to the collection. *)
Inductive write :=
  | InsertOne (oid : ObjectId.t) (data : gmap field value)
  | UpdateOne (oid : ObjectId.t) (data : gmap field value)
  | DeleteOne (oid : ObjectId.t).

(** The state of the [products] collection: its documents, keyed by [_id]
    (the collection's unique index), and the writes it has received so far,
    oldest first.  The history records which identifiers the driver has
    already generated, and lets a statement say that a call wrote
    nothing. *)
Record store := {
  docs : gmap ObjectId.t (gmap field value);
  history : list write;
}.

Fixpoint inserted_ids (h : list write) : gset ObjectId.t :=
  match h with
  | [] => ∅
  | InsertOne oid _ :: h' => {[oid]} ∪ inserted_ids h'
  | _ :: h' => inserted_ids h'
  end.

(** Awaited calls run one after the other on the collection and may raise. *)
Definition M (A : Type) : Type := store → result A * store.

Global Instance M_ret : MRet M := λ A a st, (Ok a, st).
Global Instance M_bind : MBind M := λ A B k m st,
  match m st with
  | (Ok a, st') => k a st'
  | (Raise e, st') => (Raise e, st')
  end.

Definition raise {A} (e : exn) : M A := λ st, (Raise e, st).
Definition lift {A} (r : result A) : M A := λ st, (r, st).

(** BSON comparison order on the values a field can hold: null, then
    numbers, then strings (byte-wise), then booleans. *)
Definition bson_rank (v : value) : nat :=
  match v with
  | VNone => 0
  | VFloat _ => 1
  | VStr _ => 2
  | VBool _ => 3
  end.

Definition value_leb (a b : value) : bool :=
  match a, b with
  | VFloat x, VFloat y => Qle_bool x y
  | VStr s, VStr t => String.leb s t
  | VBool x, VBool y => implb x y
  | _, _ => (bson_rank a <=? bson_rank b)%nat
  end.

(** Sorting on a key treats a missing key as null. *)
Definition sort_key (k : field) (d : document) : value :=
  default VNone (fields d !! k).

Definition doc_le (k : field) (d1 d2 : document) : Prop :=
  value_leb (sort_key k d1) (sort_key k d2).

Global Instance doc_le_dec k : RelDecision (doc_le k).
Proof. intros d1 d2. unfold doc_le. apply _. Defined.

Record UpdateResult := { matched_count : nat }.

Module db_products.

Definition documents (st : store) : list document :=
  (λ kv, {| _id := kv.1; fields := kv.2 |}) <$> map_to_list (docs st).

(** [find_one({"_id": oid})] *)
Definition find_one (oid : ObjectId.t) : M (option document) := λ st,
  (Ok ((λ fs, {| _id := oid; fields := fs |}) <$> docs st !! oid), st).

(** [find().sort(k, 1)], read to the end *)
Definition find_sort (k : field) : M (list document) := λ st,
  (Ok (merge_sort (doc_le k) (documents st)), st).

(** [ObjectId()]: the identifier is the driver's choice, not the
    program's.  The model takes one that no earlier insert used and that no
    stored document carries (the collection, whose [_id] index is unique,
    refuses a second document with a stored [_id]). *)
Definition new_ObjectId (st : store) : ObjectId.t :=
  fresh (inserted_ids (history st) ∪ dom (docs st)).

(** [insert_one(data)] for a dict without [_id]; answers [inserted_id] *)
Definition insert_one (data : gmap field value) : M ObjectId.t := λ st,
  let oid := new_ObjectId st in
  (Ok oid, {| docs := <[oid := data]> (docs st);
              history := history st ++ [InsertOne oid data] |}).

(** [update_one({"_id": oid}, {"$set": data})] *)
Definition update_one_set (oid : ObjectId.t) (data : gmap field value)
    : M UpdateResult := λ st,
  let h := history st ++ [UpdateOne oid data] in
  match docs st !! oid with
  | Some fs =>
      (Ok {| matched_count := 1 |},
       {| docs := <[oid := data ∪ fs]> (docs st); history := h |})
  | None => (Ok {| matched_count := 0 |}, {| docs := docs st; history := h |})
  end.

(** [delete_one({"_id": oid})] *)
Definition delete_one (oid : ObjectId.t) : M unit := λ st,
  (Ok (), {| docs := delete oid (docs st);
             history := history st ++ [DeleteOne oid] |}).

End db_products.

(** ** app/crud.py *)

(** The dict built by [product_helper]. *)
Module Product.
Record t := {
  id : string;
  name : value;
  description : value;
  price : value;
  in_stock : value;
}.
End Product.

(** [product[k]] and [product.get(k)] *)
Definition getitem (product : document) (k : field) : result value :=
  match fields product !! k with
  | Some v => Ok v
  | None => Raise (KeyError k)
  end.

Definition get (product : document) (k : field) : value :=
  default VNone (fields product !! k).

(** [product_helper] is also handed what [find_one] answers, which may be
    [None]; subscripting [None] raises [TypeError]. *)
Definition product_helper (found : option document) : result Product.t :=
  match found with
  | None => Raise TypeError
  | Some product =>
      let id := ObjectId.str (_id product) in
      name ← getitem product Name;
      let description := get product Description in
      price ← getitem product Price;
      in_stock ← getitem product In_stock;
      mret {| Product.id := id;
              Product.name := name;
              Product.description := description;
              Product.price := price;
              Product.in_stock := in_stock |}
  end.

(** The loop of [retrieve_products]: append the mapped documents in order,
    stopping at the first exception. *)
Fixpoint map_helper (products : list document) : result (list Product.t) :=
  match products with
  | [] => mret []
  | product :: rest =>
      p ← product_helper (Some product);
      ps ← map_helper rest;
      mret (p :: ps)
  end.

Definition retrieve_products : M (list Product.t) :=
  found ← db_products.find_sort Name;
  lift (map_helper found).

(** Truth value of what [find_one] answers: [None] is false, and a document
    is a dict that holds at least [_id], hence true. *)
Definition truthy (product : option document) : bool :=
  match product with
  | Some _ => true
  | None => false
  end.

Definition retrieve_product (id : string) : M (option Product.t) :=
  oid ← lift (ObjectId.parse id);
  product ← db_products.find_one oid;
  if truthy product then
    p ← lift (product_helper product);
    mret (Some p)
  else mret None.

Definition add_product (product_data : gmap field value) : M Product.t :=
  new_product ← db_products.insert_one product_data;
  created ← db_products.find_one new_product;
  lift (product_helper created).

(** Truth value of an [UpdateResult]: an object that defines neither
    [__bool__] nor [__len__] is true. *)
Definition truthy_result (updated : UpdateResult) : bool := true.

Definition update_product (id : string) (data : gmap field value) : M bool :=
  if (size data <? 1)%nat then mret false
  else
    oid ← lift (ObjectId.parse id);
    product ← db_products.find_one oid;
    if truthy product then
      oid' ← lift (ObjectId.parse id);
      updated ← db_products.update_one_set oid' data;
      if truthy_result updated then mret true else mret false
    else mret false.

Definition delete_product (id : string) : M bool :=
  oid ← lift (ObjectId.parse id);
  product ← db_products.find_one oid;
  if truthy product then
    oid' ← lift (ObjectId.parse id);
    _ ← db_products.delete_one oid';
    mret true
  else mret false.

(** ** app/schemas.py

    ([ProductModel] and [ProductDB] of app/models.py repeat the create shape
    and are used by no other module.) *)

(** A request body, as the JSON reader hands it to the program: a JSON
    object.  Arrays and objects nested in it are of the wrong type for every
    field and are kept as one case.  [JNumber x] is a number whose value as a
    Python [float] is the finite [x]: the rounding to a float, done by the
    reader for a literal with a fraction or an exponent and by the float
    type for an integer literal, is settled before validation compares the
    value (the literal 1e-400 arrives as the number 0).  A number without a
    finite float value (Infinity, NaN, 1e400, an integer beyond the range of
    floats) is outside the model. *)
Inductive json :=
  | JNull
  | JBool (b : bool)
  | JNumber (x : Q)
  | JString (s : string)
  | JOther.

(** The validation library's field types, with the conversions that
    pydantic 1.x applies to a value of another JSON type ([str_validator],
    [float_validator], [bool_validator]): text is taken from a boolean, a
    number is taken from a boolean, and a boolean is taken from the numbers
    0 and 1 and from the words of [BOOL_TRUE] and [BOOL_FALSE] in any
    letter case.

    Two conversions of the library have no counterpart here, for want of the
    text Python prints for a number and of its numeral grammar: a number
    sent for a text field, and a string sent for a number field.  The model
    answers "wrong type" for them; the statements that rest on what is
    accepted are restricted to payloads whose values have the JSON type of
    their field ([plain] below), and the statements about a stored document
    that the response model refuses rest on a missing key or on a null. *)
Definition str_type (j : json) : option string :=
  match j with
  | JString s => Some s
  | JBool true => Some "True"
  | JBool false => Some "False"
  | _ => None
  end.

Definition float_type (j : json) : option Q :=
  match j with
  | JNumber x => Some x
  | JBool true => Some 1%Q
  | JBool false => Some 0%Q
  | _ => None
  end.

Definition lower_ascii (c : ascii) : ascii :=
  let n := nat_of_ascii c in
  if (65 <=? n)%nat && (n <=? 90)%nat then ascii_of_nat (n + 32) else c.

(** [str.lower()], on the letters that matter for the words below *)
Fixpoint lower (s : string) : string :=
  match s with
  | EmptyString => EmptyString
  | String c s' => String (lower_ascii c) (lower s')
  end.

Definition BOOL_FALSE : list string := ["0"; "off"; "f"; "false"; "n"; "no"].
Definition BOOL_TRUE : list string := ["1"; "on"; "t"; "true"; "y"; "yes"].

Definition bool_type (j : json) : option bool :=
  match j with
  | JBool b => Some b
  | JNumber x =>
      if Qeq_bool x 1 then Some true
      else if Qeq_bool x 0 then Some false
      else None
  | JString s =>
      if bool_decide (lower s ∈ BOOL_TRUE) then Some true
      else if bool_decide (lower s ∈ BOOL_FALSE) then Some false
      else None
  | _ => None
  end.

(** [T = Field(...)] and [T = Field(default=d)]: the key is required, or
    defaults to [d]; null is not an allowed value. *)
Definition non_null {A} (f : field) (type : json → option A) (j : json)
    : error + A :=
  match j with
  | JNull => inl (f, NoneNotAllowed)
  | _ => match type j with
         | Some a => inr a
         | None => inl (f, WrongType)
         end
  end.

Definition required {A} (f : field) (type : json → option A)
    (body : gmap string json) : error + A :=
  match body !! field_name f with
  | None => inl (f, Missing)
  | Some j => non_null f type j
  end.

Definition with_default {A} (f : field) (type : json → option A) (d : A)
    (body : gmap string json) : error + A :=
  match body !! field_name f with
  | None => inr d
  | Some j => non_null f type j
  end.

(** [Optional[T]]: the key may be absent (the outer [None]: the field is
    unset) or present, with null (the inner [None]) or with a value. *)
Definition optional {A} (f : field) (type : json → option A)
    (body : gmap string json) : error + option (option A) :=
  match body !! field_name f with
  | None => inr None
  | Some JNull => inr (Some None)
  | Some j => match type j with
              | Some a => inr (Some (Some a))
              | None => inl (f, WrongType)
              end
  end.

(** The constraint [gt=0], Python's [v > 0]. *)
Definition gt (f : field) (bound : Q) (r : error + Q) : error + Q :=
  match r with
  | inr v => if negb (Qle_bool v bound) then inr v else inl (f, NotGt0)
  | inl e => inl e
  end.

Definition errors_of {A} (r : error + A) : list error :=
  match r with
  | inl e => [e]
  | inr _ => []
  end.

Definition opt_value {A} (inj : A → value) (o : option A) : value :=
  match o with
  | Some a => inj a
  | None => VNone
  end.

Module ProductSchema.

Record t := {
  name : string;
  description : option string;
  price : Q;
  in_stock : bool;
}.

Definition validate (body : gmap string json) : result t :=
  let name := required Name str_type body in
  let description := optional Description str_type body in
  let price := gt Price 0 (required Price float_type body) in
  let in_stock := with_default In_stock bool_type true body in
  match name, description, price, in_stock with
  | inr n, inr d, inr p, inr s =>
      Ok {| name := n; description := mjoin d; price := p; in_stock := s |}
  | _, _, _, _ =>
      Raise (ValidationError (errors_of name ++ errors_of description ++
                              errors_of price ++ errors_of in_stock))
  end.

(** [product.dict()] *)
Definition dict (product : t) : gmap field value :=
  {[ Name := VStr (name product);
     Description := opt_value VStr (description product);
     Price := VFloat (price product);
     In_stock := VBool (in_stock product) ]}.

End ProductSchema.

Module ProductUpdateSchema.

Record t := {
  name : option (option string);
  description : option (option string);
  price : option (option Q);
  in_stock : option (option bool);
}.

Definition validate (body : gmap string json) : result t :=
  let name := optional Name str_type body in
  let description := optional Description str_type body in
  let price := optional Price float_type body in
  let in_stock := optional In_stock bool_type body in
  match name, description, price, in_stock with
  | inr n, inr d, inr p, inr s =>
      Ok {| name := n; description := d; price := p; in_stock := s |}
  | _, _, _, _ =>
      Raise (ValidationError (errors_of name ++ errors_of description ++
                              errors_of price ++ errors_of in_stock))
  end.

Definition put_set {A} (k : field) (inj : A → value) (o : option (option A))
    (d : gmap field value) : gmap field value :=
  match o with
  | Some v => <[k := opt_value inj v]> d
  | None => d
  end.

(** [product.dict(exclude_unset=True)]: the fields the caller sent. *)
Definition dict_exclude_unset (product : t) : gmap field value :=
  put_set Name VStr (name product)
    (put_set Description VStr (description product)
      (put_set Price VFloat (price product)
        (put_set In_stock VBool (in_stock product) ∅))).

End ProductUpdateSchema.

Module ProductOutSchema.

Record t := {
  id : string;
  name : string;
  description : option string;
  price : Q;
  in_stock : bool;
}.

(** A Python value as the validation library meets it. *)
Definition to_json (v : value) : json :=
  match v with
  | VNone => JNull
  | VStr s => JString s
  | VFloat x => JNumber x
  | VBool b => JBool b
  end.

(** The four inherited fields of the dict that a handler returns. *)
Definition inherited (product : Product.t) : gmap string json :=
  {[ "name" := to_json (Product.name product);
     "description" := to_json (Product.description product);
     "price" := to_json (Product.price product);
     "in_stock" := to_json (Product.in_stock product) ]}.

(** Validation of a handler's return value against the response model:
    [ProductOutSchema] extends [ProductSchema], so the four inherited fields
    go through the validation of the create shape, conversions included;
    [id] is a [str] already. *)
Definition validate (product : Product.t) : option t :=
  match ProductSchema.validate (inherited product) with
  | Ok fields =>
      Some {| id := Product.id product;
              name := ProductSchema.name fields;
              description := ProductSchema.description fields;
              price := ProductSchema.price fields;
              in_stock := ProductSchema.in_stock fields |}
  | Raise _ => None
  end.

End ProductOutSchema.

(** ** app/routers/products.py *)

Definition get_products : M (list Product.t) :=
  retrieve_products.

(** [not product] holds exactly when [retrieve_product] answered [None]: the
    dict of [product_helper] has five keys. *)
Definition get_product (id : string) : M Product.t :=
  product ← retrieve_product id;
  match product with
  | None => raise (HTTPException 404 "Product not found")
  | Some p => mret p
  end.

Definition create_product (product : ProductSchema.t) : M Product.t :=
  add_product (ProductSchema.dict product).

Definition update_existing_product (id : string)
    (product : ProductUpdateSchema.t) : M bool :=
  update_product id (ProductUpdateSchema.dict_exclude_unset product).

Definition delete_existing_product (id : string) : M bool :=
  delete_product id.

(** *** The routes

    What the framework does around a handler: the request body is validated
    against the handler's schema (422 with the field errors on failure,
    without calling the handler), an [HTTPException] becomes a response with
    its status code, any other exception a 500, and a returned value is
    validated against the route's [response_model] and sent with the
    route's status code.  (Encoding the response as JSON fails only on a
    non-finite float, which the model does not have.) *)
Inductive content :=
  | Products (ps : list ProductOutSchema.t)
  | OneProduct (p : ProductOutSchema.t)
  | Bool (b : bool)
  | Detail (detail : string)
  | FieldErrors (errors : list error)
  | InternalServerError.

Record response := {
  status_code : nat;
  body : content;
}.

Definition respond {A} (code : nat) (response_model : A → option content)
    (handler : M A) (st : store) : response * store :=
  match handler st with
  | (Ok a, st') =>
      match response_model a with
      | Some c => ({| status_code := code; body := c |}, st')
      | None => ({| status_code := 500; body := InternalServerError |}, st')
      end
  | (Raise (HTTPException code' detail), st') =>
      ({| status_code := code'; body := Detail detail |}, st')
  | (Raise _, st') =>
      ({| status_code := 500; body := InternalServerError |}, st')
  end.

Definition with_body {A} (schema : gmap string json → result A)
    (request : gmap string json) (route : A → store → response * store)
    (st : store) : response * store :=
  match schema request with
  | Ok a => route a st
  | Raise (ValidationError errors) =>
      ({| status_code := 422; body := FieldErrors errors |}, st)
  | Raise _ => ({| status_code := 500; body := InternalServerError |}, st)
  end.

Definition one_product (p : Product.t) : option content :=
  OneProduct <$> ProductOutSchema.validate p.

Definition product_list (ps : list Product.t) : option content :=
  Products <$> mapM ProductOutSchema.validate ps.

Definition boolean (b : bool) : option content := Some (Bool b).

Module routes.

(** [GET /products/] *)
Definition list_products : store → response * store :=
  respond 200 product_list get_products.

(** [GET /products/{id}] *)
Definition get (id : string) : store → response * store :=
  respond 200 one_product (get_product id).

(** [POST /products/] *)
Definition post (request : gmap string json) : store → response * store :=
  with_body ProductSchema.validate request
    (λ product, respond 201 one_product (create_product product)).

(** [PUT /products/{id}] *)
Definition put (id : string) (request : gmap string json)
    : store → response * store :=
  with_body ProductUpdateSchema.validate request
    (λ product, respond 200 boolean (update_existing_product id product)).

(** [DELETE /products/{id}] *)
Definition delete (id : string) : store → response * store :=
  respond 200 boolean (delete_existing_product id).

End routes.

(** The requests the application answers, and a sequence of them served one
    after the other. *)
Inductive request :=
  | GET_products
  | GET_product (id : string)
  | POST_product (payload : gmap string json)
  | PUT_product (id : string) (payload : gmap string json)
  | DELETE_product (id : string).

Definition handle (r : request) : store → response * store :=
  match r with
  | GET_products => routes.list_products
  | GET_product id => routes.get id
  | POST_product payload => routes.post payload
  | PUT_product id payload => routes.put id payload
  | DELETE_product id => routes.delete id
  end.

Fixpoint serve (rs : list request) (st : store) : list response * store :=
  match rs with
  | [] => ([], st)
  | r :: rs' =>
      let '(answer, st') := handle r st in
      let '(answers, st'') := serve rs' st' in
      (answer :: answers, st'')
  end.

(** * Vocabulary of the statements

    Names for the collection a write leaves behind, for what a request
    supplies, and the sample collections and requests the statements are
    tried on. *)

Definition after_insert (oid : ObjectId.t) (data : gmap field value)
    (st : store) : store :=
  {| docs := <[oid := data]> (docs st);
     history := history st ++ [InsertOne oid data] |}.

Definition after_update (oid : ObjectId.t) (data fs : gmap field value)
    (st : store) : store :=
  {| docs := <[oid := data ∪ fs]> (docs st);
     history := history st ++ [UpdateOne oid data] |}.

Definition after_delete (oid : ObjectId.t) (st : store) : store :=
  {| docs := delete oid (docs st);
     history := history st ++ [DeleteOne oid] |}.

(** What one request can do to the collection: nothing, or one of the three
    writes. *)
Inductive write_step (st : store) : store → Prop :=
  | step_none : write_step st st
  | step_insert product :
      write_step st
        (after_insert (db_products.new_ObjectId st)
           (ProductSchema.dict product) st)
  | step_update oid data fs :
      docs st !! oid = Some fs →
      write_step st (after_update oid data fs st)
  | step_delete oid :
      write_step st (after_delete oid st).

Definition empty_store : store := {| docs := ∅; history := [] |}.

Definition server_error : response :=
  {| status_code := 500; body := InternalServerError |}.

(** The field set of an update request, as the caller sent it: a field is
    either not supplied, or supplied with null or with a value. *)
Definition supplied (product : ProductUpdateSchema.t) (k : field)
    : option value :=
  match k with
  | Name => opt_value VStr <$> ProductUpdateSchema.name product
  | Description => opt_value VStr <$> ProductUpdateSchema.description product
  | Price => opt_value VFloat <$> ProductUpdateSchema.price product
  | In_stock => opt_value VBool <$> ProductUpdateSchema.in_stock product
  end.

(** The record that create returns for a validated payload stored under
    [oid], as the mapper builds it and as the route sends it. *)
Definition created (oid : ObjectId.t) (product : ProductSchema.t)
    : Product.t :=
  {| Product.id := ObjectId.str oid;
     Product.name := VStr (ProductSchema.name product);
     Product.description := opt_value VStr (ProductSchema.description product);
     Product.price := VFloat (ProductSchema.price product);
     Product.in_stock := VBool (ProductSchema.in_stock product) |}.

Definition created_out (oid : ObjectId.t) (product : ProductSchema.t)
    : ProductOutSchema.t :=
  {| ProductOutSchema.id := ObjectId.str oid;
     ProductOutSchema.name := ProductSchema.name product;
     ProductOutSchema.description := ProductSchema.description product;
     ProductOutSchema.price := ProductSchema.price product;
     ProductOutSchema.in_stock := ProductSchema.in_stock product |}.

(** A validated create request with another name. *)
Definition with_name (s : string) (product : ProductSchema.t)
    : ProductSchema.t :=
  {| ProductSchema.name := s;
     ProductSchema.description := ProductSchema.description product;
     ProductSchema.price := ProductSchema.price product;
     ProductSchema.in_stock := ProductSchema.in_stock product |}.

(** The rationals that a float holds exactly: m * 2^e with |m| < 2^53 and
    -1074 <= e <= 971. *)
Definition is_double (x : Q) : bool :=
  let r := Qred x in
  let n := Z.abs (Qnum r) in
  let d := Z.pos (Qden r) in
  let k := Z.log2 d in
  (d =? 2 ^ k) &&
  (if k =? 0
   then (n <? 2 ^ 1024) && (n / Z.land n (- n) <? 2 ^ 53)
   else (k <=? 1074) && (n <? 2 ^ 53)).

(** A create payload is plain when each of the four fields it sends has the
    JSON type of the field: [name] a string, [description] a string or
    null, [price] a number that a float holds exactly, [in_stock] a
    boolean.  Validation converts nothing in a plain payload. *)
Definition sent_as (ok : json → bool) (o : option json) : bool :=
  match o with
  | Some j => ok j
  | None => true
  end.

Definition is_string (j : json) : bool :=
  match j with JString _ => true | _ => false end.

Definition is_string_or_null (j : json) : bool :=
  match j with JString _ | JNull => true | _ => false end.

Definition is_exact_number (j : json) : bool :=
  match j with JNumber x => is_double x | _ => false end.

Definition is_boolean (j : json) : bool :=
  match j with JBool _ => true | _ => false end.

Definition plain (payload : gmap string json) : bool :=
  sent_as is_string (payload !! "name") &&
  sent_as is_string_or_null (payload !! "description") &&
  sent_as is_exact_number (payload !! "price") &&
  sent_as is_boolean (payload !! "in_stock").





(** A stored document carries the fields that [product_helper] subscripts. *)
Definition complete (fs : gmap field value) : Prop :=
  is_Some (fs !! Name) ∧ is_Some (fs !! Price) ∧ is_Some (fs !! In_stock).

Global Instance complete_dec fs : Decision (complete fs).
Proof. unfold complete. apply _. Defined.

Definition all_complete (st : store) : Prop :=
  map_Forall (λ _ fs, complete fs) (docs st).

Global Instance all_complete_dec st : Decision (all_complete st).
Proof. unfold all_complete. apply _. Defined.

(** The order of the listed products: by [name], ascending. *)
Definition name_le (p q : Product.t) : Prop :=
  value_leb (Product.name p) (Product.name q).

(** A list of products is a listing of the collection when it has one
    product per stored document, every stored document's image under the
    mapper is in it, every product in it is the image of a stored document,
    and it is in ascending order of [name]. *)
Definition listing_of (st : store) (ps : list Product.t) : Prop :=
  length ps = size (docs st) ∧
  (∀ oid fs, docs st !! oid = Some fs →
     ∃ p, p ∈ ps ∧
          product_helper (Some {| _id := oid; fields := fs |}) = Ok p) ∧
  (∀ p, p ∈ ps →
     ∃ oid fs, docs st !! oid = Some fs ∧
               product_helper (Some {| _id := oid; fields := fs |}) = Ok p) ∧
  StronglySorted name_le ps.

(** ** Sample data *)

(** The create request [{"name": "Widget", "price": 5}], what validation
    makes of it, and the collection that [POST /products/] leaves when it
    receives the request on the empty collection. *)
Definition widget_body : gmap string json :=
  {[ "name" := JString "Widget"; "price" := JNumber 5 ]}.

Definition widget_product : ProductSchema.t :=
  {| ProductSchema.name := "Widget";
     ProductSchema.description := None;
     ProductSchema.price := 5;
     ProductSchema.in_stock := true |}.

Definition widget_fields : gmap field value :=
  {[ Name := VStr "Widget"; Description := VNone;
     Price := VFloat 5; In_stock := VBool true ]}.

Definition widget_id : string := "000000000000000000000000".

Definition widget_out : ProductOutSchema.t :=
  {| ProductOutSchema.id := widget_id;
     ProductOutSchema.name := "Widget";
     ProductOutSchema.description := None;
     ProductOutSchema.price := 5;
     ProductOutSchema.in_stock := true |}.

Definition one_widget : store :=
  {| docs := {[ 0%N := widget_fields ]};
     history := [InsertOne 0%N widget_fields] |}.

Definition price_only (x : Q) : ProductUpdateSchema.t :=
  {| ProductUpdateSchema.name := None;
     ProductUpdateSchema.description := None;
     ProductUpdateSchema.price := Some (Some x);
     ProductUpdateSchema.in_stock := None |}.

Definition null_only (k : field) : ProductUpdateSchema.t :=
  {| ProductUpdateSchema.name := if decide (k = Name) then Some None else None;
     ProductUpdateSchema.description :=
       if decide (k = Description) then Some None else None;
     ProductUpdateSchema.price := if decide (k = Price) then Some None else None;
     ProductUpdateSchema.in_stock :=
       if decide (k = In_stock) then Some None else None |}.



Definition empty_name_body : gmap string json :=
  {[ "name" := JString ""; "price" := JNumber 5 ]}.

Definition empty_name_product : ProductSchema.t :=
  {| ProductSchema.name := "";
     ProductSchema.description := None;
     ProductSchema.price := 5;
     ProductSchema.in_stock := true |}.

(** The one-widget collection after [PUT {"name": null}] on the widget. *)
Definition spoiled : store :=
  (routes.put widget_id {[ "name" := JNull ]} one_widget).2.

(** The collection after creating "banana", "apple" and "cherry", in that
    order. *)
Definition named (n : string) : gmap field value :=
  {[ Name := VStr n; Description := VNone;
     Price := VFloat 1; In_stock := VBool true ]}.

Definition fruits : store :=
  {| docs := {[ 0%N := named "banana"; 1%N := named "apple";
                2%N := named "cherry" ]};
     history := [InsertOne 0%N (named "banana"); InsertOne 1%N (named "apple");
                 InsertOne 2%N (named "cherry")] |}.

Definition listed (oid : ObjectId.t) (n : string) : Product.t :=
  {| Product.id := ObjectId.str oid;
     Product.name := VStr n;
     Product.description := VNone;
     Product.price := VFloat 1;
     Product.in_stock := VBool true |}.

(** What the response model makes of a stored document: the mapper's dict,
    validated against [ProductOutSchema]. *)
Definition out_of (d : document) : option ProductOutSchema.t :=
  match product_helper (Some d) with
  | Ok p => ProductOutSchema.validate p
  | Raise _ => None
  end.

(** The value the mapper's dict holds under a field's key. *)
Definition field_of (p : Product.t) (k : field) : value :=
  match k with
  | Name => Product.name p
  | Description => Product.description p
  | Price => Product.price p
  | In_stock => Product.in_stock p
  end.

(** The update request that sends none of the four fields. *)
Definition nothing_set : ProductUpdateSchema.t :=
  {| ProductUpdateSchema.name := None;
     ProductUpdateSchema.description := None;
     ProductUpdateSchema.price := None;
     ProductUpdateSchema.in_stock := None |}.

(** * Properties *)

(** ** Running the monad *)

Lemma bind_ok {A B} (m : M A) (k : A → M B) st a st' :
  m st = (Ok a, st') → (m ≫= k) st = k a st'.
Proof. intros H. unfold mbind, M_bind. by rewrite H. Qed.

Lemma bind_raise {A B} (m : M A) (k : A → M B) st e st' :
  m st = (Raise e, st') → (m ≫= k) st = (Raise e, st').
Proof. intros H. unfold mbind, M_bind. by rewrite H. Qed.

(** ** ObjectId *)

Lemma to_N_zeros n s : HexString.Raw.to_N (ObjectId.zeros n s) 0 = HexString.Raw.to_N s 0.
Proof. induction n as [|n IH]; [done|]. simpl. exact IH. Qed.

Lemma to_N_hex oid : HexString.Raw.to_N (ObjectId.hex oid) 0 = oid.
Proof.
  destruct oid as [|p]; [done|]. simpl.
  by rewrite HexString.Raw.to_N_of_pos.
Qed.

(** [str] determines the identifier: distinct ObjectIds print differently. *)
Lemma to_N_str oid : HexString.Raw.to_N (ObjectId.str oid) 0 = oid.
Proof. unfold ObjectId.str. by rewrite to_N_zeros, to_N_hex. Qed.

Global Instance str_inj : Inj (=) (=) ObjectId.str.
Proof. intros x y H. by rewrite <-(to_N_str x), <-(to_N_str y), H. Qed.



Lemma parse_short id :
  String.length id ≠ 24%nat → ObjectId.parse id = Raise (InvalidId id).
Proof.
  intros H. unfold ObjectId.parse.
  by destruct (Nat.eqb_spec (String.length id) 24).
Qed.

(** ** The CRUD functions, case by case *)

Lemma retrieve_product_eq id st :
  retrieve_product id st =
    match ObjectId.parse id with
    | Raise e => (Raise e, st)
    | Ok oid =>
        match docs st !! oid with
        | Some fs =>
            match product_helper (Some {| _id := oid; fields := fs |}) with
            | Ok p => (Ok (Some p), st)
            | Raise e => (Raise e, st)
            end
        | None => (Ok None, st)
        end
    end.
Proof.
  unfold retrieve_product, mbind, M_bind, lift, db_products.find_one.
  destruct (ObjectId.parse id) as [oid|e]; [|done].
  destruct (docs st !! oid) as [fs|]; cbn -[product_helper]; [|done].
  by destruct (product_helper _).
Qed.

Lemma size_lt_1 (data : gmap field value) :
  (size data <? 1)%nat = true ↔ data = ∅.
Proof.
  rewrite Nat.ltb_lt, <-map_size_empty_iff. lia.
Qed.

Lemma nonempty_size (data : gmap field value) :
  data ≠ ∅ → (size data <? 1)%nat = false.
Proof.
  intros H. destruct (size data <? 1)%nat eqn:E; [|done].
  by apply size_lt_1 in E.
Qed.

Lemma update_product_eq id data st :
  update_product id data st =
    if (size data <? 1)%nat then (Ok false, st)
    else match ObjectId.parse id with
         | Raise e => (Raise e, st)
         | Ok oid =>
             match docs st !! oid with
             | Some fs => (Ok true, after_update oid data fs st)
             | None => (Ok false, st)
             end
         end.
Proof.
  unfold update_product, mbind, M_bind, lift, db_products.find_one,
    db_products.update_one_set, after_update.
  destruct (size data <? 1)%nat; [done|].
  destruct (ObjectId.parse id) as [oid|e]; [|done].
  destruct (docs st !! oid) as [fs|] eqn:E; simpl; [|done].
  by rewrite E.
Qed.

Lemma delete_product_eq id st :
  delete_product id st =
    match ObjectId.parse id with
    | Raise e => (Raise e, st)
    | Ok oid =>
        match docs st !! oid with
        | Some _ => (Ok true, after_delete oid st)
        | None => (Ok false, st)
        end
    end.
Proof.
  unfold delete_product, mbind, M_bind, lift, db_products.find_one,
    db_products.delete_one, after_delete.
  destruct (ObjectId.parse id) as [oid|e]; [|done].
  by destruct (docs st !! oid) as [fs|].
Qed.

Lemma add_product_eq data st :
  add_product data st =
    (product_helper
       (Some {| _id := db_products.new_ObjectId st; fields := data |}),
     after_insert (db_products.new_ObjectId st) data st).
Proof.
  unfold add_product, mbind, M_bind, lift, db_products.insert_one,
    db_products.find_one.
  cbn -[product_helper db_products.new_ObjectId].
  by rewrite lookup_insert_eq.
Qed.

Lemma product_helper_dict oid product :
  product_helper (Some {| _id := oid; fields := ProductSchema.dict product |})
  = Ok (created oid product).
Proof. reflexivity. Qed.

Lemma new_ObjectId_fresh st :
  (db_products.new_ObjectId st ∉ inserted_ids (history st)) ∧
  docs st !! db_products.new_ObjectId st = None.
Proof.
  unfold db_products.new_ObjectId.
  pose proof (is_fresh (inserted_ids (history st) ∪ dom (docs st))) as H.
  split; [set_solver|]. apply not_elem_of_dom. set_solver.
Qed.

(** ** The validation shapes *)



Lemma optional_inv {A} f (type : json → option A) body o :
  optional f type body = inr o →
  match body !! field_name f with
  | None => o = None
  | Some JNull => o = Some None
  | Some j => ∃ a, type j = Some a ∧ o = Some (Some a)
  end.
Proof.
  unfold optional. destruct (body !! field_name f) as [j|]; [|congruence].
  destruct j; simpl; try congruence; intros H;
    match goal with
    | H : context [type ?j] |- _ =>
        destruct (type j) as [a|] eqn:E; [|done]; exists a; split; congruence
    end.
Qed.

Lemma gt_inv f bound r v :
  gt f bound r = inr v → r = inr v ∧ (bound < v)%Q.
Proof.
  unfold gt. destruct r as [e|x]; [done|].
  destruct (Qle_bool x bound) eqn:E; simpl; [done|].
  intros [= <-]. split; [done|].
  apply Qnot_le_lt. intros Hle. apply Qle_bool_iff in Hle. congruence.
Qed.

Lemma create_validate_inv body product :
  ProductSchema.validate body = Ok product →
  required Name str_type body = inr (ProductSchema.name product) ∧
  (∃ d, optional Description str_type body = inr d ∧
        ProductSchema.description product = mjoin d) ∧
  gt Price 0 (required Price float_type body)
    = inr (ProductSchema.price product) ∧
  with_default In_stock bool_type true body
    = inr (ProductSchema.in_stock product).
Proof.
  unfold ProductSchema.validate.
  destruct (required Name str_type body),
    (optional Description str_type body) as [|d],
    (gt Price 0 (required Price float_type body)),
    (with_default In_stock bool_type true body); try discriminate.
  intros [= <-]. simpl. split_and!; try done. by exists d.
Qed.

Lemma validate_price_positive body product :
  ProductSchema.validate body = Ok product →
  (0 < ProductSchema.price product)%Q.
Proof.
  intros (_ & _ & Hp & _)%create_validate_inv.
  by apply gt_inv in Hp as [_ Hpos].
Qed.


Lemma update_validate_inv body product :
  ProductUpdateSchema.validate body = Ok product →
  optional Name str_type body = inr (ProductUpdateSchema.name product) ∧
  optional Description str_type body
    = inr (ProductUpdateSchema.description product) ∧
  optional Price float_type body = inr (ProductUpdateSchema.price product) ∧
  optional In_stock bool_type body
    = inr (ProductUpdateSchema.in_stock product).
Proof.
  unfold ProductUpdateSchema.validate.
  destruct (optional Name str_type body), (optional Description str_type body),
    (optional Price float_type body), (optional In_stock bool_type body);
    try discriminate.
  by intros [= <-].
Qed.

(** The payload handed to [update_product] holds the supplied fields and no
    other key. *)
Lemma dict_exclude_unset_lookup product k :
  ProductUpdateSchema.dict_exclude_unset product !! k = supplied product k.
Proof.
  destruct product as [n d p s].
  unfold ProductUpdateSchema.dict_exclude_unset, ProductUpdateSchema.put_set.
  destruct n, d, p, s, k; simpl; by simplify_map_eq.
Qed.

Lemma some_supplied_nonempty product k :
  is_Some (supplied product k) →
  ProductUpdateSchema.dict_exclude_unset product ≠ ∅.
Proof.
  intros [v Hv] Hempty.
  rewrite <-dict_exclude_unset_lookup, Hempty in Hv. by rewrite lookup_empty in Hv.
Qed.

(** A field sent as null is a supplied field, with value [None]. *)
Lemma null_is_supplied body product k :
  ProductUpdateSchema.validate body = Ok product →
  body !! field_name k = Some JNull →
  supplied product k = Some VNone.
Proof.
  intros (Hn & Hd & Hp & Hs)%update_validate_inv Hk.
  destruct k; simpl;
    [ apply optional_inv in Hn; rewrite Hk in Hn; by rewrite Hn
    | apply optional_inv in Hd; rewrite Hk in Hd; by rewrite Hd
    | apply optional_inv in Hp; rewrite Hk in Hp; by rewrite Hp
    | apply optional_inv in Hs; rewrite Hk in Hs; by rewrite Hs ].
Qed.

(** ** The routes *)

Lemma respond_raise {A} code (model : A → option content) (h : M A) st e st' :
  h st = (Raise e, st') →
  (∀ c d, e ≠ HTTPException c d) →
  respond code model h st =
    ({| status_code := 500; body := InternalServerError |}, st').
Proof.
  intros H Hne. unfold respond. rewrite H.
  destruct e as [| | |c d|]; try done. by destruct (Hne c d).
Qed.

Lemma respond_store {A} code (model : A → option content) (h : M A) st :
  (respond code model h st).2 = (h st).2.
Proof.
  unfold respond. destruct (h st) as [[a|e] st']; simpl.
  - by destruct (model a).
  - by destruct e.
Qed.

Lemma put_valid id body product st :
  ProductUpdateSchema.validate body = Ok product →
  routes.put id body st =
    respond 200 boolean
      (update_product id (ProductUpdateSchema.dict_exclude_unset product)) st.
Proof. intros H. unfold routes.put, with_body. by rewrite H. Qed.

Lemma inherited_lookup product k :
  ProductOutSchema.inherited product !! field_name k
    = Some (ProductOutSchema.to_json (field_of product k)).
Proof. by destruct k. Qed.

(** The record that create returns passes the response model as it is. *)
Lemma out_validate_created oid product :
  (0 < ProductSchema.price product)%Q →
  ProductOutSchema.validate (created oid product)
    = Some (created_out oid product).
Proof.
  intros Hpos. unfold ProductOutSchema.validate, ProductSchema.validate,
    required, optional, with_default.
  rewrite !inherited_lookup. simpl.
  assert (Qle_bool (ProductSchema.price product) 0 = false) as ->.
  { destruct (Qle_bool _ 0) eqn:E; [|done].
    apply Qle_bool_iff in E. by apply Qle_not_lt in E. }
  destruct product as [n [d|] x b]; reflexivity.
Qed.

Lemma post_valid payload product st :
  ProductSchema.validate payload = Ok product →
  routes.post payload st =
    ({| status_code := 201;
        body := OneProduct (created_out (db_products.new_ObjectId st) product) |},
     after_insert (db_products.new_ObjectId st)
       (ProductSchema.dict product) st).
Proof.
  intros Hvalid.
  pose proof (validate_price_positive _ _ Hvalid) as Hpos.
  unfold routes.post, with_body. rewrite Hvalid.
  unfold respond, create_product.
  rewrite add_product_eq, product_helper_dict.
  unfold one_product. by rewrite out_validate_created.
Qed.

Lemma post_widget :
  routes.post widget_body empty_store =
    ({| status_code := 201; body := OneProduct widget_out |}, one_widget).
Proof. by vm_compute. Qed.

(** ** Identifiers that do not parse, or that no record carries *)

(** An id that parses but that no stored record carries is "not found": get
    answers 404, update and delete return false, and nothing is written. *)
Lemma missing_id_is_not_found id oid data st :
  ObjectId.parse id = Ok oid →
  docs st !! oid = None →
  routes.get id st =
    ({| status_code := 404; body := Detail "Product not found" |}, st) ∧
  update_product id data st = (Ok false, st) ∧
  delete_product id st = (Ok false, st).
Proof.
  intros Hid Hnone. split_and!.
  - unfold routes.get, respond, get_product.
    erewrite bind_ok by (by rewrite retrieve_product_eq, Hid, Hnone).
    done.
  - rewrite update_product_eq, Hid, Hnone. by destruct (size data <? 1)%nat.
  - by rewrite delete_product_eq, Hid, Hnone.
Qed.

(** C1, as the code behaves: for an id string that does not parse as an
    ObjectId, get and delete raise [InvalidId] (their routes answer 500), and
    update returns false when the field set is empty and raises [InvalidId]
    otherwise; none of them changes the collection. *)
Theorem invalid_id_raises (id : string) (data : gmap field value) (st : store) :
  ObjectId.parse id = Raise (InvalidId id) →
  retrieve_product id st = (Raise (InvalidId id), st) ∧
  routes.get id st = (server_error, st) ∧
  update_product id data st =
    (if (size data <? 1)%nat then Ok false else Raise (InvalidId id), st) ∧
  delete_product id st = (Raise (InvalidId id), st) ∧
  routes.delete id st = (server_error, st).
Proof.
  intros Hid.
  assert (retrieve_product id st = (Raise (InvalidId id), st)) as Hget.
  { by rewrite retrieve_product_eq, Hid. }
  assert (delete_product id st = (Raise (InvalidId id), st)) as Hdel.
  { by rewrite delete_product_eq, Hid. }
  repeat split; try done.
  - unfold routes.get. apply respond_raise with (e := InvalidId id); [|done].
    unfold get_product. by apply bind_raise.
  - rewrite update_product_eq, Hid. by destruct (size data <? 1)%nat.
  - unfold routes.delete, delete_existing_product.
    by apply respond_raise with (e := InvalidId id).
Qed.

Lemma invalid_id_raises_witness :
  ObjectId.parse "abc" = Raise (InvalidId "abc") ∧
  routes.get "abc" empty_store = (server_error, empty_store) ∧
  update_product "abc" {[ Price := VFloat 1 ]} empty_store =
    (Raise (InvalidId "abc"), empty_store).
Proof.
  split; [reflexivity|].
  destruct (invalid_id_raises "abc" {[ Price := VFloat 1 ]} empty_store)
    as (_ & Hget & Hupd & _); [reflexivity|].
  split; [exact Hget | exact Hupd].
Defined.

(** C1 as stated fails: the id ["abc"] does not parse, yet get answers 500
    rather than 404, and delete and a non-empty update raise instead of
    returning false. *)
Lemma invalid_id_is_not_not_found :
  ObjectId.parse "abc" = Raise (InvalidId "abc") ∧
  status_code (routes.get "abc" empty_store).1 = 500%nat ∧
  (update_product "abc" {[ Price := VFloat 1 ]} empty_store).1
    = Raise (InvalidId "abc") ∧
  (delete_product "abc" empty_store).1 = Raise (InvalidId "abc").
Proof. by vm_compute. Qed.

(** ** Validation of create and update requests *)

(** C3, as the code behaves: [name] is required, and nothing is asked of
    its content.  A create payload without [name] is rejected with a
    "missing" error on the field, and one whose [name] is null with a "none
    not allowed" error; and when a payload is accepted, the same payload
    with any string for [name], the empty string included, is accepted too,
    with that string as the record's name. *)
Theorem create_requires_name (body : gmap string json) :
  (body !! "name" = None →
     ∃ errors, ProductSchema.validate body = Raise (ValidationError errors) ∧
               (Name, Missing) ∈ errors) ∧
  (body !! "name" = Some JNull →
     ∃ errors, ProductSchema.validate body = Raise (ValidationError errors) ∧
               (Name, NoneNotAllowed) ∈ errors) ∧
  (∀ product s,
     ProductSchema.validate body = Ok product →
     ProductSchema.validate (<["name" := JString s]> body)
       = Ok (with_name s product)).
Proof.
  split_and!.
  - intros Hmissing. unfold ProductSchema.validate.
    assert (required Name str_type body = inl (Name, Missing)) as ->.
    { unfold required. simpl. by rewrite Hmissing. }
    eexists. split; [reflexivity|]. simpl. apply list_elem_of_here.
  - intros Hnull. unfold ProductSchema.validate.
    assert (required Name str_type body = inl (Name, NoneNotAllowed)) as ->.
    { unfold required. simpl. by rewrite Hnull. }
    eexists. split; [reflexivity|]. simpl. apply list_elem_of_here.
  - intros product s (_ & (d & Hd & Hdescr) & Hp & Hs)%create_validate_inv.
    unfold ProductSchema.validate, required, optional, with_default in *.
    simpl in *. rewrite lookup_insert_eq.
    rewrite !lookup_insert_ne by done.
    rewrite Hd, Hp, Hs. simpl. unfold with_name. by rewrite Hdescr.
Qed.

Lemma create_requires_name_witness :
  (∃ errors,
     ProductSchema.validate {[ "price" := JNumber 5 ]}
       = Raise (ValidationError errors) ∧
     (Name, Missing) ∈ errors) ∧
  (∃ errors,
     ProductSchema.validate {[ "name" := JNull; "price" := JNumber 5 ]}
       = Raise (ValidationError errors) ∧
     (Name, NoneNotAllowed) ∈ errors) ∧
  ProductSchema.validate (<["name" := JString ""]> widget_body)
    = Ok (with_name "" widget_product).
Proof.
  split_and!.
  - apply (proj1 (create_requires_name {[ "price" := JNumber 5 ]})).
    reflexivity.
  - apply (proj1 (proj2 (create_requires_name
                           {[ "name" := JNull; "price" := JNumber 5 ]}))).
    reflexivity.
  - apply (proj2 (proj2 (create_requires_name widget_body))).
    reflexivity.
Defined.

(** C3 as stated fails: a create payload whose name is the empty string
    passes validation. *)
Lemma empty_name_is_accepted :
  ProductSchema.validate empty_name_body = Ok empty_name_product.
Proof. reflexivity. Qed.

(** The create shape does reject a price that is not above zero. *)
Lemma create_rejects_nonpositive_price body x :
  body !! "price" = Some (JNumber x) →
  (x <= 0)%Q →
  ∃ errors, ProductSchema.validate body = Raise (ValidationError errors) ∧
            (Price, NotGt0) ∈ errors.
Proof.
  intros Hprice Hx. unfold ProductSchema.validate.
  assert (gt Price 0 (required Price float_type body) = inl (Price, NotGt0))
    as ->.
  { unfold required, gt. simpl. rewrite Hprice. simpl.
    apply Qle_bool_iff in Hx. by rewrite Hx. }
  destruct (required Name str_type body),
    (optional Description str_type body),
    (with_default In_stock bool_type true body);
    (eexists; split; [reflexivity|]); simpl; set_solver.
Qed.

(** The update shape puts no constraint on [price]. *)
Lemma update_accepts_any_price x :
  ProductUpdateSchema.validate {[ "price" := JNumber x ]} = Ok (price_only x).
Proof. reflexivity. Qed.

(** C2 fails on the update path: with the product created from
    [{"name": "Widget", "price": 5}] in the collection, the request
    [PUT {"price": -1}] passes validation, reaches the collection as the
    payload [{price: -1}], is answered [true], and the stored price is -1
    afterwards. *)
Theorem update_stores_nonpositive_price :
  ProductUpdateSchema.validate {[ "price" := JNumber (-1) ]}
    = Ok (price_only (-1)) ∧
  ∃ st',
    routes.put widget_id {[ "price" := JNumber (-1) ]} one_widget
      = ({| status_code := 200; body := Bool true |}, st') ∧
    history st' = history one_widget ++
                    [UpdateOne 0%N {[ Price := VFloat (-1) ]}] ∧
    docs st' !! 0%N = Some (<[Price := VFloat (-1)]> widget_fields).
Proof.
  split; [reflexivity|]. eexists. split; [by vm_compute|]. by vm_compute.
Qed.

(** ** Create *)




(** ** List *)

Lemma value_leb_total a b : value_leb a b = true ∨ value_leb b a = true.
Proof.
  destruct a as [|s|x|[]], b as [|t|y|[]]; simpl; auto.
  - apply String.leb_total.
  - destruct (Qlt_le_dec y x) as [Hlt|Hle].
    + right. apply Qle_bool_iff. by apply Qlt_le_weak.
    + left. by apply Qle_bool_iff.
Qed.

Lemma value_leb_trans a b c :
  value_leb a b = true → value_leb b c = true → value_leb a c = true.
Proof.
  destruct a as [|s|x|[]], b as [|t|y|[]], c as [|u|z|[]]; simpl; try done.
  - intros H1%Is_true_true H2%Is_true_true. apply Is_true_true.
    by trans t; [exact H1 | exact H2].
  - rewrite !Qle_bool_iff. apply Qle_trans.
Qed.

Global Instance doc_le_total k : Total (doc_le k).
Proof.
  intros d1 d2. unfold doc_le.
  destruct (value_leb_total (sort_key k d1) (sort_key k d2)) as [->| ->]; auto.
Qed.

Global Instance doc_le_trans k : Transitive (doc_le k).
Proof.
  intros d1 d2 d3 H1%Is_true_true H2%Is_true_true. apply Is_true_true.
  by eapply value_leb_trans.
Qed.

Lemma product_helper_complete d :
  complete (fields d) →
  ∃ p, product_helper (Some d) = Ok p ∧
       Product.id p = ObjectId.str (_id d) ∧
       Product.name p = sort_key Name d.
Proof.
  intros ([n Hn] & [p Hp] & [s Hs]). unfold product_helper, getitem, sort_key.
  rewrite Hn, Hp, Hs. simpl. eauto.
Qed.

Lemma map_helper_complete ds :
  Forall (λ d, complete (fields d)) ds →
  ∃ ps, map_helper ds = Ok ps ∧
        Forall2 (λ d p, product_helper (Some d) = Ok p) ds ps.
Proof.
  induction 1 as [|d ds Hd _ (ps & Hps & Hall)].
  - exists []. by split.
  - destruct (product_helper_complete d Hd) as (p & Hp & _).
    exists (p :: ps). cbn -[product_helper]. rewrite Hp. simpl. rewrite Hps.
    split; [done|]. by constructor.
Qed.

Lemma helper_keeps_order ds ps :
  Forall2 (λ d p, product_helper (Some d) = Ok p) ds ps →
  StronglySorted (doc_le Name) ds →
  StronglySorted name_le ps.
Proof.
  assert (∀ d p, product_helper (Some d) = Ok p →
                 Product.name p = sort_key Name d) as Hname.
  { intros d p. unfold product_helper, getitem, sort_key.
    destruct (fields d !! Name); [|done]. simpl.
    destruct (fields d !! Price); [|done]. simpl.
    destruct (fields d !! In_stock); [|done]. simpl. by intros [= <-]. }
  induction 1 as [|d p ds ps Hp Hall IH]; [constructor|].
  intros [Hsorted Hhd]%StronglySorted_inv. constructor; [by apply IH|].
  clear IH Hsorted. induction Hall as [|d' p' ds ps Hp' _ IH]; [constructor|].
  apply Forall_cons in Hhd as [Hd' Hrest]. constructor; [|by apply IH].
  unfold name_le. rewrite (Hname _ _ Hp), (Hname _ _ Hp'). exact Hd'.
Qed.

Lemma sorted_documents_spec st d :
  d ∈ merge_sort (doc_le Name) (db_products.documents st) ↔
  docs st !! _id d = Some (fields d).
Proof.
  rewrite merge_sort_Permutation. unfold db_products.documents.
  rewrite list_elem_of_fmap. split.
  - intros ([oid fs] & -> & Hin). simpl. by apply elem_of_map_to_list.
  - intros H. exists (_id d, fields d). split; [by destruct d|].
    by apply elem_of_map_to_list.
Qed.

Lemma documents_complete st :
  all_complete st → Forall (λ d, complete (fields d)) (db_products.documents st).
Proof.
  intros Hall. unfold db_products.documents.
  apply Forall_fmap, Forall_forall. intros [oid fs] Hin%elem_of_map_to_list.
  simpl. by eapply Hall.
Qed.

Example list_fruits :
  retrieve_products fruits =
    (Ok [listed 1 "apple"; listed 0 "banana"; listed 2 "cherry"], fruits).
Proof. by vm_compute. Qed.

(** ** Update *)

(** C4: whatever the id, an update with an empty field set returns false and
    leaves the collection as it was, documents and write history alike;
    the PUT route with a body that sends no field answers [false] too. *)
Theorem update_empty_is_noop (id : string) (st : store) :
  update_product id ∅ st = (Ok false, st) ∧
  routes.put id ∅ st = ({| status_code := 200; body := Bool false |}, st).
Proof.
  assert (update_product id ∅ st = (Ok false, st)) as H.
  { by rewrite update_product_eq. }
  split; [done|].
  unfold routes.put, with_body, ProductUpdateSchema.validate, optional.
  rewrite !lookup_empty.
  unfold respond, update_existing_product,
    ProductUpdateSchema.dict_exclude_unset. simpl.
  by rewrite H.
Qed.

(** C5: for an existing record and an update request that supplies at least
    one field, the payload passed on holds exactly the supplied fields, the
    update succeeds, every supplied field of the stored record takes the
    supplied value, every other field keeps its value, and no other record
    changes. *)
Theorem update_overwrites_supplied_fields (id : string) (oid : ObjectId.t)
    (fs : gmap field value) (product : ProductUpdateSchema.t) (st : store) :
  ObjectId.parse id = Ok oid →
  docs st !! oid = Some fs →
  (∃ k, is_Some (supplied product k)) →
  ∃ st' fs',
    update_existing_product id product st = (Ok true, st') ∧
    history st' = history st ++
      [UpdateOne oid (ProductUpdateSchema.dict_exclude_unset product)] ∧
    (∀ k, ProductUpdateSchema.dict_exclude_unset product !! k
            = supplied product k) ∧
    docs st' !! oid = Some fs' ∧
    (∀ k, fs' !! k = match supplied product k with
                     | Some v => Some v
                     | None => fs !! k
                     end) ∧
    (∀ oid', oid' ≠ oid → docs st' !! oid' = docs st !! oid').
Proof.
  intros Hid Hfs [k0 Hk0].
  set (data := ProductUpdateSchema.dict_exclude_unset product).
  exists (after_update oid data fs st), (data ∪ fs).
  unfold update_existing_product. fold data.
  rewrite update_product_eq, nonempty_size, Hid, Hfs
    by (by apply some_supplied_nonempty with k0).
  split_and!; try done.
  - apply dict_exclude_unset_lookup.
  - simpl. by rewrite lookup_insert_eq.
  - intros k. rewrite lookup_union, <-dict_exclude_unset_lookup. fold data.
    by destruct (data !! k), (fs !! k).
  - intros oid' Hne. simpl. by rewrite lookup_insert_ne.
Qed.

Lemma update_overwrites_supplied_fields_witness :
  ∃ st' fs',
    update_existing_product widget_id (price_only (999 # 100)) one_widget
      = (Ok true, st') ∧
    history st' = history one_widget ++
      [UpdateOne 0%N
         (ProductUpdateSchema.dict_exclude_unset (price_only (999 # 100)))] ∧
    (∀ k, ProductUpdateSchema.dict_exclude_unset (price_only (999 # 100)) !! k
            = supplied (price_only (999 # 100)) k) ∧
    docs st' !! 0%N = Some fs' ∧
    (∀ k, fs' !! k = match supplied (price_only (999 # 100)) k with
                     | Some v => Some v
                     | None => widget_fields !! k
                     end) ∧
    (∀ oid', oid' ≠ 0%N → docs st' !! oid' = docs one_widget !! oid').
Proof.
  apply (update_overwrites_supplied_fields widget_id 0%N widget_fields
           (price_only (999 # 100)) one_widget).
  - reflexivity.
  - reflexivity.
  - exists Price. simpl. eexists. reflexivity.
Defined.

(** C9: for an existing record and a non-empty field set, update returns
    true once the merge has been sent; this holds also when every supplied
    field already has the supplied value, in which case the stored
    documents are the same as before. *)
Theorem update_reports_success (id : string) (oid : ObjectId.t)
    (fs data : gmap field value) (st : store) :
  ObjectId.parse id = Ok oid →
  docs st !! oid = Some fs →
  data ≠ ∅ →
  ∃ st', update_product id data st = (Ok true, st') ∧
         history st' = history st ++ [UpdateOne oid data] ∧
         docs st' = <[oid := data ∪ fs]> (docs st) ∧
         (data ⊆ fs → docs st' = docs st).
Proof.
  intros Hid Hfs Hdata. exists (after_update oid data fs st).
  rewrite update_product_eq, (nonempty_size _ Hdata), Hid, Hfs.
  repeat split. simpl. intros Hsub.
  rewrite (map_subseteq_union _ _ Hsub). by apply insert_id.
Qed.

Lemma update_reports_success_witness :
  ∃ st', update_product widget_id {[ Price := VFloat 5 ]} one_widget
           = (Ok true, st') ∧
         history st' = history one_widget ++
                         [UpdateOne 0%N {[ Price := VFloat 5 ]}] ∧
         docs st' = <[0%N := {[ Price := VFloat 5 ]} ∪ widget_fields]>
                      (docs one_widget) ∧
         (({[ Price := VFloat 5 ]} : gmap field value) ⊆ widget_fields →
          docs st' = docs one_widget).
Proof.
  apply (update_reports_success widget_id 0%N widget_fields
           {[ Price := VFloat 5 ]} one_widget).
  - reflexivity.
  - reflexivity.
  - intros H. by vm_compute in H.
Defined.

(** C10: a request that sends only [{k: null}] passes update validation,
    for each of the four fields [k]; and for an existing record, every
    accepted update request that sends field [k] as null is answered [true]
    and leaves the stored field [k] holding null. *)
Theorem null_overwrites_field (id : string) (oid : ObjectId.t)
    (fs : gmap field value) (body : gmap string json)
    (product : ProductUpdateSchema.t) (k : field) (st : store) :
  ObjectId.parse id = Ok oid →
  docs st !! oid = Some fs →
  body !! field_name k = Some JNull →
  ProductUpdateSchema.validate body = Ok product →
  ProductUpdateSchema.validate {[ field_name k := JNull ]} = Ok (null_only k) ∧
  ProductUpdateSchema.dict_exclude_unset product !! k = Some VNone ∧
  ∃ st',
    routes.put id body st = ({| status_code := 200; body := Bool true |}, st') ∧
    docs st' !! oid
      = Some (ProductUpdateSchema.dict_exclude_unset product ∪ fs) ∧
    (ProductUpdateSchema.dict_exclude_unset product ∪ fs) !! k = Some VNone.
Proof.
  intros Hid Hfs Hk Hvalid.
  pose proof (null_is_supplied _ _ _ Hvalid Hk) as Hsup.
  set (data := ProductUpdateSchema.dict_exclude_unset product).
  assert (data !! k = Some VNone) as Hdata.
  { unfold data. by rewrite dict_exclude_unset_lookup. }
  split_and!; [by destruct k | done |].
  exists (after_update oid data fs st). split_and!.
  - rewrite (put_valid _ _ _ _ Hvalid). fold data. unfold respond.
    rewrite update_product_eq, nonempty_size, Hid, Hfs; [done|].
    intros Hempty. by rewrite Hempty, lookup_empty in Hdata.
  - simpl. by rewrite lookup_insert_eq.
  - by rewrite lookup_union, Hdata; destruct (fs !! k).
Qed.

Lemma null_overwrites_field_witness :
  ProductUpdateSchema.validate {[ "name" := JNull ]} = Ok (null_only Name) ∧
  ProductUpdateSchema.dict_exclude_unset (null_only Name) !! Name
    = Some VNone ∧
  ∃ st',
    routes.put widget_id {[ "name" := JNull ]} one_widget
      = ({| status_code := 200; body := Bool true |}, st') ∧
    docs st' !! 0%N
      = Some (ProductUpdateSchema.dict_exclude_unset (null_only Name)
                ∪ widget_fields) ∧
    (ProductUpdateSchema.dict_exclude_unset (null_only Name) ∪ widget_fields)
      !! Name = Some VNone.
Proof.
  apply (null_overwrites_field widget_id 0%N widget_fields
           {[ "name" := JNull ]} (null_only Name) Name one_widget);
    reflexivity.
Defined.

(** ** Delete *)

(** C6, as the code behaves: for an id that parses as an ObjectId, delete
    returns true and removes the record when a record with that id exists,
    and returns false (writing nothing) otherwise; after a successful
    delete, get on the same id finds nothing (the route answers 404) and a
    second delete returns false. *)
Theorem delete_by_id (id : string) (oid : ObjectId.t) (st : store) :
  ObjectId.parse id = Ok oid →
  match docs st !! oid with
  | Some _ =>
      ∃ st', delete_product id st = (Ok true, st') ∧
             docs st' = delete oid (docs st) ∧
             retrieve_product id st' = (Ok None, st') ∧
             status_code (routes.get id st').1 = 404%nat ∧
             delete_product id st' = (Ok false, st')
  | None => delete_product id st = (Ok false, st)
  end.
Proof.
  intros Hid. destruct (docs st !! oid) as [fs|] eqn:Hfs.
  - exists (after_delete oid st).
    assert (docs (after_delete oid st) !! oid = None) as Hgone.
    { simpl. apply lookup_delete_eq. }
    assert (retrieve_product id (after_delete oid st)
              = (Ok None, after_delete oid st)) as Hget.
    { by rewrite retrieve_product_eq, Hid, Hgone. }
    split_and!; try done.
    + by rewrite delete_product_eq, Hid, Hfs.
    + unfold routes.get, respond, get_product.
      by erewrite bind_ok by exact Hget.
    + by rewrite delete_product_eq, Hid, Hgone.
  - by rewrite delete_product_eq, Hid, Hfs.
Qed.

Lemma delete_by_id_witness :
  ∃ st', delete_product widget_id one_widget = (Ok true, st') ∧
         docs st' = delete 0%N (docs one_widget) ∧
         retrieve_product widget_id st' = (Ok None, st') ∧
         status_code (routes.get widget_id st').1 = 404%nat ∧
         delete_product widget_id st' = (Ok false, st').
Proof.
  apply (delete_by_id widget_id 0%N one_widget). reflexivity.
Defined.

(** C6 as stated fails for an id that does not parse: no record has the id
    ["abc"], and delete raises instead of returning false. *)
Lemma delete_unparsable_id_raises :
  docs empty_store = ∅ ∧
  delete_product "abc" empty_store = (Raise (InvalidId "abc"), empty_store) ∧
  (delete_product "abc" empty_store).1 ≠ Ok false.
Proof. by vm_compute. Qed.

(** ** Sequences of requests *)

Lemma retrieve_product_store id st : (retrieve_product id st).2 = st.
Proof.
  rewrite retrieve_product_eq.
  destruct (ObjectId.parse id) as [oid|]; [|done].
  destruct (docs st !! oid); [|done]. by destruct (product_helper _).
Qed.

Lemma get_product_store id st : (get_product id st).2 = st.
Proof.
  pose proof (retrieve_product_store id st) as H.
  unfold get_product, mbind, M_bind.
  by destruct (retrieve_product id st) as [[[p|]|e] st'].
Qed.

Lemma handle_step r st : write_step st (handle r st).2.
Proof.
  destruct r as [|id|payload|id payload|id]; simpl.
  - unfold routes.list_products. rewrite respond_store. constructor.
  - unfold routes.get. rewrite respond_store, get_product_store. constructor.
  - unfold routes.post, with_body.
    destruct (ProductSchema.validate payload) as [product|e].
    + rewrite respond_store. unfold create_product. rewrite add_product_eq.
      constructor.
    + destruct e; constructor.
  - unfold routes.put, with_body.
    destruct (ProductUpdateSchema.validate payload) as [product|e].
    + rewrite respond_store. unfold update_existing_product.
      rewrite update_product_eq.
      destruct (size _ <? 1)%nat; [constructor|].
      destruct (ObjectId.parse id) as [oid|]; [|constructor].
      destruct (docs st !! oid) as [fs|] eqn:E; by constructor.
    + destruct e; constructor.
  - unfold routes.delete, delete_existing_product.
    rewrite respond_store, delete_product_eq.
    destruct (ObjectId.parse id) as [oid|]; [|constructor].
    destruct (docs st !! oid); constructor.
Qed.

Lemma dict_complete product : complete (ProductSchema.dict product).
Proof. repeat split; by eexists. Qed.

Lemma union_complete data fs : complete fs → complete (data ∪ fs).
Proof.
  unfold complete. rewrite !lookup_union.
  intros (Hn & Hp & Hs).
  destruct Hn as [? ->], Hp as [? ->], Hs as [? ->].
  destruct (data !! Name), (data !! Price), (data !! In_stock); by eauto.
Qed.

(** Every write of the application keeps the stored documents complete. *)
Lemma step_complete st st' :
  write_step st st' → all_complete st → all_complete st'.
Proof.
  unfold all_complete. intros [|product|oid data fs Hfs|oid] Hall; simpl.
  - done.
  - apply map_Forall_insert_2; [apply dict_complete | done].
  - apply map_Forall_insert_2; [|done].
    apply union_complete. by apply (Hall oid).
  - by apply map_Forall_delete.
Qed.

Lemma serve_complete rs st :
  all_complete st → all_complete (serve rs st).2.
Proof.
  revert st. induction rs as [|r rs IH]; intros st Hst; simpl; [done|].
  pose proof (handle_step r st) as Hstep.
  destruct (handle r st) as [answer st1].
  specialize (IH st1 (step_complete _ _ Hstep Hst)).
  by destruct (serve rs st1) as [answers st2].
Qed.

(** Starting from the empty collection, whatever requests are served, every
    stored document carries the fields the mapper reads. *)
Lemma reachable_complete rs : all_complete (serve rs empty_store).2.
Proof. apply serve_complete. apply map_Forall_empty. Qed.

Lemma retrieve_products_listing st :
  all_complete st →
  ∃ ps, retrieve_products st = (Ok ps, st) ∧ listing_of st ps.
Proof.
  intros Hall.
  set (ds := merge_sort (doc_le Name) (db_products.documents st)).
  assert (retrieve_products st = (map_helper ds, st)) as Hrun by done.
  assert (ds ≡ₚ db_products.documents st) as Hperm
    by apply merge_sort_Permutation.
  assert (StronglySorted (doc_le Name) ds) as Hsorted
    by apply (StronglySorted_merge_sort _).
  destruct (map_helper_complete ds) as (ps & Hps & Hmap).
  { rewrite Hperm. by apply documents_complete. }
  exists ps. rewrite Hrun, Hps. split; [done|]. split_and!.
  - rewrite <-(Forall2_length _ _ _ Hmap), Hperm.
    unfold db_products.documents. by rewrite length_fmap, length_map_to_list.
  - intros oid fs Hfs.
    assert ({| _id := oid; fields := fs |} ∈ ds) as Hin
      by by apply sorted_documents_spec.
    apply list_elem_of_lookup in Hin as [i Hi].
    destruct (Forall2_lookup_l _ _ _ _ _ Hmap Hi) as (p & Hp & Hhelper).
    exists p. split; [|done]. apply list_elem_of_lookup. by exists i.
  - intros p [i Hi]%list_elem_of_lookup.
    destruct (Forall2_lookup_r _ _ _ _ _ Hmap Hi) as ([oid fs] & Hd & Hhelper).
    exists oid, fs. split; [|done].
    apply (sorted_documents_spec st {| _id := oid; fields := fs |}).
    apply list_elem_of_lookup. by exists i.
  - by apply (helper_keeps_order _ _ Hmap).
Qed.

(** C8: on every collection whose documents carry the fields the mapper
    reads, and so on every collection that serving requests builds from the
    empty one, list returns, leaving the collection as it was, a listing of
    the collection: one product per stored document, each stored document's
    image under [product_helper] and nothing else, in ascending order of
    [name].  An empty collection yields the empty list, not an error. *)
Theorem list_is_sorted_by_name (st : store) (rs : list request) :
  (all_complete st →
     ∃ ps, retrieve_products st = (Ok ps, st) ∧ listing_of st ps) ∧
  (∃ ps, retrieve_products (serve rs empty_store).2
           = (Ok ps, (serve rs empty_store).2) ∧
         listing_of (serve rs empty_store).2 ps) ∧
  (docs st = ∅ → retrieve_products st = (Ok [], st)).
Proof.
  split_and!.
  - apply retrieve_products_listing.
  - apply retrieve_products_listing, serve_complete, map_Forall_empty.
  - intros Hempty.
    change (retrieve_products st)
      with (map_helper (merge_sort (doc_le Name) (db_products.documents st)),
            st).
    unfold db_products.documents. by rewrite Hempty, map_to_list_empty.
Qed.

Lemma list_is_sorted_by_name_witness :
  (∃ ps, retrieve_products fruits = (Ok ps, fruits) ∧ listing_of fruits ps) ∧
  (∃ ps, retrieve_products
           (serve [POST_product widget_body; POST_product empty_name_body]
              empty_store).2
         = (Ok ps, (serve [POST_product widget_body;
                           POST_product empty_name_body] empty_store).2) ∧
         listing_of (serve [POST_product widget_body;
                            POST_product empty_name_body] empty_store).2 ps) ∧
  retrieve_products empty_store = (Ok [], empty_store).
Proof.
  split_and!.
  - apply (proj1 (list_is_sorted_by_name fruits [])).
    apply (bool_decide_unpack _ (dec := all_complete_dec fruits)).
    vm_compute. exact I.
  - exact (proj1 (proj2 (list_is_sorted_by_name empty_store
             [POST_product widget_body; POST_product empty_name_body]))).
  - apply (proj2 (proj2 (list_is_sorted_by_name empty_store []))).
    reflexivity.
Defined.

(** The example run of the specification: create a widget, read it, mark it
    out of stock, read it again, delete it, and read it once more. *)
Example widget_life :
  (serve [POST_product widget_body;
          GET_product widget_id;
          PUT_product widget_id {[ "in_stock" := JBool false ]};
          GET_product widget_id;
          DELETE_product widget_id;
          GET_product widget_id] empty_store).1 =
    [ {| status_code := 201; body := OneProduct widget_out |};
      {| status_code := 200; body := OneProduct widget_out |};
      {| status_code := 200; body := Bool true |};
      {| status_code := 200;
         body := OneProduct
           {| ProductOutSchema.id := widget_id;
              ProductOutSchema.name := "Widget";
              ProductOutSchema.description := None;
              ProductOutSchema.price := 5;
              ProductOutSchema.in_stock := false |} |};
      {| status_code := 200; body := Bool true |};
      {| status_code := 404; body := Detail "Product not found" |} ].
Proof. by vm_compute. Qed.

(** * Further properties of the program *)

(** ** ObjectId: printing and parsing *)

Lemma length_zeros n s :
  String.length (ObjectId.zeros n s) = (n + String.length s)%nat.
Proof. induction n as [|n IH]; simpl; [done|]. by rewrite IH. Qed.

Lemma all_hex_zeros n s :
  ObjectId.all_hex (ObjectId.zeros n s) = ObjectId.all_hex s.
Proof. induction n as [|n IH]; simpl; [done|]. exact IH. Qed.

Lemma all_hex_of_pos p rest :
  ObjectId.all_hex rest = true →
  ObjectId.all_hex (HexString.Raw.of_pos p rest) = true.
Proof.
  revert rest.
  assert (∀ n p, (Pos.size_nat p ≤ n)%nat → ∀ rest,
            ObjectId.all_hex rest = true →
            ObjectId.all_hex (HexString.Raw.of_pos p rest) = true) as H.
  { intros n. induction n as [|n IH]; intros q Hq rest Hrest.
    - destruct q; simpl in Hq; lia.
    - do 4 (try destruct q as [q|q|]); simpl; try exact Hrest;
        apply IH; simpl in Hq; try lia; exact Hrest. }
  intros rest. by apply (H (Pos.size_nat p)).
Qed.

Lemma length_of_pos n p rest :
  (N.pos p < 16 ^ N.of_nat n)%N →
  (String.length (HexString.Raw.of_pos p rest) ≤ n + String.length rest)%nat.
Proof.
  revert p rest. induction n as [|n IH]; intros p rest Hp.
  { simpl in Hp. lia. }
  rewrite Nat2N.inj_succ, N.pow_succ_r' in Hp.
  set (b := (16 ^ N.of_nat n)%N) in *.
  assert (0 < b)%N as Hb by (apply N.neq_0_lt_0, N.pow_nonzero; lia).
  do 4 (try destruct p as [p|p|]); simpl; try lia;
    (etrans; [apply IH; fold b; lia | simpl; lia]).
Qed.

(** An identifier of twelve bytes prints as a string that parses back to
    it. *)
Lemma parse_str oid :
  (oid < 16 ^ 24)%N → ObjectId.parse (ObjectId.str oid) = Ok oid.
Proof.
  intros Hoid.
  assert (String.length (ObjectId.hex oid) ≤ 24)%nat as Hlen.
  { destruct oid as [|p]; simpl; [lia|].
    pose proof (length_of_pos 24 p EmptyString Hoid) as H. simpl in H. lia. }
  assert (ObjectId.all_hex (ObjectId.hex oid) = true) as Hhex.
  { destruct oid as [|p]; simpl; [done|]. by apply all_hex_of_pos. }
  unfold ObjectId.parse.
  assert (String.length (ObjectId.str oid) = 24%nat) as ->.
  { unfold ObjectId.str. rewrite length_zeros. lia. }
  assert (ObjectId.all_hex (ObjectId.str oid) = true) as ->.
  { unfold ObjectId.str. by rewrite all_hex_zeros. }
  simpl. by rewrite to_N_str.
Qed.

(** ** What the routes answer *)

Lemma product_helper_exn found e :
  product_helper found = Raise e → ∀ c d, e ≠ HTTPException c d.
Proof.
  destruct found as [d|]; simpl; [|by intros [= <-]].
  unfold getitem.
  destruct (fields d !! Name); simpl; [|by intros [= <-]].
  destruct (fields d !! Price); simpl; [|by intros [= <-]].
  destruct (fields d !! In_stock); simpl; [done|by intros [= <-]].
Qed.

Lemma out_of_ok d p :
  product_helper (Some d) = Ok p → out_of d = ProductOutSchema.validate p.
Proof. intros H. unfold out_of. by rewrite H. Qed.

Lemma out_of_raise d e : product_helper (Some d) = Raise e → out_of d = None.
Proof. intros H. unfold out_of. by rewrite H. Qed.

Lemma map_helper_out ds :
  match map_helper ds with
  | Ok ps => mapM ProductOutSchema.validate ps = mapM out_of ds
  | Raise e => mapM out_of ds = None ∧ ∀ c d, e ≠ HTTPException c d
  end.
Proof.
  induction ds as [|d ds IH]; [done|].
  cbn -[product_helper out_of].
  destruct (product_helper (Some d)) as [p|e] eqn:Hp;
    cbn -[product_helper out_of].
  - rewrite (out_of_ok _ _ Hp).
    destruct (map_helper ds) as [ps|e]; cbn -[product_helper out_of].
    + by rewrite IH.
    + destruct IH as [-> Hne]. split; [|done].
      by destruct (ProductOutSchema.validate p).
  - rewrite (out_of_raise _ _ Hp). split; [done|].
    by eapply product_helper_exn.
Qed.

Lemma list_products_eq st :
  routes.list_products st =
    (match mapM out_of (merge_sort (doc_le Name) (db_products.documents st)) with
     | Some outs => {| status_code := 200; body := Products outs |}
     | None => server_error
     end, st).
Proof.
  unfold routes.list_products, respond, get_products.
  change (retrieve_products st)
    with (map_helper (merge_sort (doc_le Name) (db_products.documents st)), st).
  pose proof (map_helper_out
    (merge_sort (doc_le Name) (db_products.documents st))) as H.
  destruct (map_helper _) as [ps|e].
  - unfold product_list. rewrite H. by destruct (mapM out_of _).
  - destruct H as [-> Hne]. destruct e as [| | |c d|]; try done.
    by destruct (Hne c d).
Qed.

Lemma get_found_eq id oid fs st :
  ObjectId.parse id = Ok oid →
  docs st !! oid = Some fs →
  routes.get id st =
    (match out_of {| _id := oid; fields := fs |} with
     | Some out => {| status_code := 200; body := OneProduct out |}
     | None => server_error
     end, st).
Proof.
  intros Hid Hfs. unfold routes.get, respond, get_product, out_of.
  unfold mbind at 1, M_bind. rewrite retrieve_product_eq, Hid, Hfs.
  destruct (product_helper _) as [p|e] eqn:Hp.
  - unfold one_product. cbn. by destruct (ProductOutSchema.validate p).
  - destruct e as [| | |c d|]; try done.
    by destruct (product_helper_exn _ _ Hp c d).
Qed.

Lemma product_helper_fields d p :
  product_helper (Some d) = Ok p →
  Product.id p = ObjectId.str (_id d) ∧
  ∀ k, field_of p k = default VNone (fields d !! k).
Proof.
  unfold product_helper, getitem, get.
  destruct (fields d !! Name) as [n|] eqn:Hn; [|done]. simpl.
  destruct (fields d !! Price) as [x|] eqn:Hx; [|done]. simpl.
  destruct (fields d !! In_stock) as [s|] eqn:Hs; [|done]. simpl.
  intros [= <-]. split; [done|]. intros []; simpl; by rewrite ?Hn, ?Hx, ?Hs.
Qed.

Lemma out_of_dict oid product :
  (0 < ProductSchema.price product)%Q →
  out_of {| _id := oid; fields := ProductSchema.dict product |}
    = Some (created_out oid product).
Proof.
  intros Hpos. unfold out_of. rewrite product_helper_dict.
  by apply out_validate_created.
Qed.

Lemma validate_null_rejected body k :
  body !! field_name k = Some JNull →
  k ≠ Description →
  ∃ errors, ProductSchema.validate body = Raise (ValidationError errors).
Proof.
  intros Hk Hne. unfold ProductSchema.validate.
  destruct k; [|done| |].
  - assert (required Name str_type body = inl (Name, NoneNotAllowed)) as ->.
    { unfold required. by rewrite Hk. }
    by eexists.
  - assert (gt Price 0 (required Price float_type body)
              = inl (Price, NoneNotAllowed)) as ->.
    { unfold required. by rewrite Hk. }
    destruct (required Name str_type body),
      (optional Description str_type body),
      (with_default In_stock bool_type true body); by eexists.
  - assert (with_default In_stock bool_type true body
              = inl (In_stock, NoneNotAllowed)) as ->.
    { unfold with_default. by rewrite Hk. }
    destruct (required Name str_type body),
      (optional Description str_type body),
      (gt Price 0 (required Price float_type body)); by eexists.
Qed.

(** A document in which [name], [price] or [in_stock] is missing or null
    does not pass the response model: the mapper raises on a missing key,
    and the response model refuses null for the three fields. *)
Lemma out_of_absent oid fs k :
  k ≠ Description →
  fs !! k = None ∨ fs !! k = Some VNone →
  out_of {| _id := oid; fields := fs |} = None.
Proof.
  intros Hne Hk. unfold out_of.
  destruct (product_helper (Some {| _id := oid; fields := fs |}))
    as [p|e] eqn:Hp; [|done].
  destruct (product_helper_fields _ _ Hp) as [_ Hfields].
  destruct Hk as [Hk|Hk].
  - exfalso. revert Hp. unfold product_helper, getitem. simpl.
    destruct (fs !! Name) as [n|] eqn:Hn; [|done]. simpl.
    destruct (fs !! Price) as [x|] eqn:Hx; [|done]. simpl.
    destruct (fs !! In_stock) as [b|] eqn:Hb; [|done].
    destruct k; congruence.
  - unfold ProductOutSchema.validate.
    destruct (validate_null_rejected (ProductOutSchema.inherited p) k)
      as [errors ->]; [|done..].
    by rewrite inherited_lookup, Hfields; simpl; rewrite Hk.
Qed.

(** ** Listing *)

(** One stored document in which [name], [price] or [in_stock] is missing
    or null is enough for [GET /products/] to answer 500: the whole listing
    is lost, not only the offending product.  The collection is not
    changed. *)
Theorem list_fails_on_one_bad_document (st : store) (oid : ObjectId.t)
    (fs : gmap field value) (k : field) :
  docs st !! oid = Some fs →
  k ≠ Description →
  fs !! k = None ∨ fs !! k = Some VNone →
  routes.list_products st = (server_error, st).
Proof.
  intros Hfs Hne Hk. rewrite list_products_eq.
  assert (mapM out_of (merge_sort (doc_le Name) (db_products.documents st))
            = None) as ->; [|done].
  apply mapM_None_2, Exists_exists.
  exists {| _id := oid; fields := fs |}. split.
  - by apply sorted_documents_spec.
  - by apply out_of_absent with k.
Qed.

Lemma list_fails_on_one_bad_document_witness :
  routes.list_products spoiled = (server_error, spoiled).
Proof.
  apply (list_fails_on_one_bad_document spoiled 0%N
           (<[Name := VNone]> widget_fields) Name).
  - reflexivity.
  - intros H. discriminate H.
  - right. reflexivity.
Defined.

(** ** Reading back what was written *)

Lemma out_of_null oid fs k :
  fs !! k = Some VNone → k ≠ Description →
  out_of {| _id := oid; fields := fs |} = None.
Proof. intros Hk Hne. apply out_of_absent with k; auto. Qed.

Lemma put_existing id oid fs body product st :
  ObjectId.parse id = Ok oid →
  docs st !! oid = Some fs →
  ProductUpdateSchema.validate body = Ok product →
  ProductUpdateSchema.dict_exclude_unset product ≠ ∅ →
  routes.put id body st =
    ({| status_code := 200; body := Bool true |},
     after_update oid (ProductUpdateSchema.dict_exclude_unset product) fs st).
Proof.
  intros Hid Hfs Hvalid Hdata.
  rewrite (put_valid _ _ _ _ Hvalid). unfold respond.
  by rewrite update_product_eq, nonempty_size, Hid, Hfs.
Qed.

(** After an accepted update that sends [name], [price] or [in_stock] as
    null for an existing record, the record can no longer be served: GET on
    its id answers 500, and so does the listing of all products. *)
Theorem null_update_breaks_reads (id : string) (oid : ObjectId.t)
    (fs : gmap field value) (body : gmap string json)
    (product : ProductUpdateSchema.t) (k : field) (st : store) :
  ObjectId.parse id = Ok oid →
  docs st !! oid = Some fs →
  ProductUpdateSchema.validate body = Ok product →
  body !! field_name k = Some JNull →
  k ≠ Description →
  ∃ st',
    routes.put id body st = ({| status_code := 200; body := Bool true |}, st') ∧
    routes.get id st' = (server_error, st') ∧
    routes.list_products st' = (server_error, st').
Proof.
  intros Hid Hfs Hvalid Hk Hne.
  set (data := ProductUpdateSchema.dict_exclude_unset product).
  assert (data !! k = Some VNone) as Hdata.
  { unfold data. rewrite dict_exclude_unset_lookup.
    by eapply null_is_supplied. }
  assert (data ≠ ∅) as Hnonempty.
  { intros Hempty. by rewrite Hempty, lookup_empty in Hdata. }
  exists (after_update oid data fs st).
  assert (docs (after_update oid data fs st) !! oid = Some (data ∪ fs)) as Hnew.
  { simpl. by rewrite lookup_insert_eq. }
  assert (out_of {| _id := oid; fields := data ∪ fs |} = None) as Hbad.
  { apply out_of_null with k; [|done].
    rewrite lookup_union, Hdata. by destruct (fs !! k). }
  split_and!.
  - by apply put_existing.
  - by rewrite (get_found_eq _ _ _ _ Hid Hnew), Hbad.
  - rewrite list_products_eq.
    assert (mapM out_of (merge_sort (doc_le Name)
              (db_products.documents (after_update oid data fs st))) = None)
      as ->; [|done].
    apply mapM_None_2, Exists_exists.
    exists {| _id := oid; fields := data ∪ fs |}. split; [|done].
    by apply sorted_documents_spec.
Qed.

Lemma null_update_breaks_reads_witness :
  ∃ st',
    routes.put widget_id {[ "price" := JNull ]} one_widget
      = ({| status_code := 200; body := Bool true |}, st') ∧
    routes.get widget_id st' = (server_error, st') ∧
    routes.list_products st' = (server_error, st').
Proof.
  apply (null_update_breaks_reads widget_id 0%N widget_fields
           {[ "price" := JNull ]} (null_only Price) Price one_widget);
    try reflexivity.
  intros H. discriminate H.
Defined.

(** A record created by POST is read back unchanged: for a plain payload
    that validation accepts, and a new identifier that is a twelve-byte
    value, GET on the id that POST returned answers 200 with the very
    object that POST sent. *)
Theorem get_after_post (payload : gmap string json)
    (product : ProductSchema.t) (st : store) :
  ProductSchema.validate payload = Ok product →
  plain payload = true →
  (db_products.new_ObjectId st < 16 ^ 24)%N →
  ∃ out st',
    routes.post payload st =
      ({| status_code := 201; body := OneProduct out |}, st') ∧
    routes.get (ProductOutSchema.id out) st' =
      ({| status_code := 200; body := OneProduct out |}, st').
Proof.
  intros Hvalid _ Hoid.
  pose proof (validate_price_positive _ _ Hvalid) as Hpos.
  set (oid := db_products.new_ObjectId st) in *.
  exists (created_out oid product),
    (after_insert oid (ProductSchema.dict product) st).
  split; [by apply post_valid|].
  rewrite (get_found_eq _ oid (ProductSchema.dict product)).
  - by rewrite out_of_dict.
  - by apply parse_str.
  - simpl. by rewrite lookup_insert_eq.
Qed.

Lemma get_after_post_witness :
  ∃ out st',
    routes.post widget_body one_widget =
      ({| status_code := 201; body := OneProduct out |}, st') ∧
    routes.get (ProductOutSchema.id out) st' =
      ({| status_code := 200; body := OneProduct out |}, st').
Proof.
  apply (get_after_post widget_body widget_product one_widget).
  - reflexivity.
  - reflexivity.
  - reflexivity.
Defined.

(** A successful update is seen by the next get: for an existing record that
    carries the fields the mapper reads, get after update returns the record
    under the same id, each field holding the value the update supplied or,
    where it supplied none, the value stored before. *)
Theorem get_after_update (id : string) (oid : ObjectId.t)
    (fs data : gmap field value) (st : store) :
  ObjectId.parse id = Ok oid →
  docs st !! oid = Some fs →
  complete fs →
  data ≠ ∅ →
  ∃ st' p,
    update_product id data st = (Ok true, st') ∧
    retrieve_product id st' = (Ok (Some p), st') ∧
    Product.id p = ObjectId.str oid ∧
    ∀ k, field_of p k = match data !! k with
                        | Some v => v
                        | None => default VNone (fs !! k)
                        end.
Proof.
  intros Hid Hfs Hcomplete Hdata.
  destruct (product_helper_complete {| _id := oid; fields := data ∪ fs |})
    as (p & Hp & _); [by apply union_complete|].
  exists (after_update oid data fs st), p.
  destruct (product_helper_fields _ _ Hp) as [Hpid Hfields].
  split_and!; try done.
  - by rewrite update_product_eq, nonempty_size, Hid, Hfs.
  - assert (docs (after_update oid data fs st) !! oid = Some (data ∪ fs))
      as Hnew by (simpl; by rewrite lookup_insert_eq).
    by rewrite retrieve_product_eq, Hid, Hnew, Hp.
  - intros k. rewrite Hfields. simpl. rewrite lookup_union.
    by destruct (data !! k), (fs !! k).
Qed.

Lemma get_after_update_witness :
  ∃ st' p,
    update_product widget_id {[ In_stock := VBool false ]} one_widget
      = (Ok true, st') ∧
    retrieve_product widget_id st' = (Ok (Some p), st') ∧
    Product.id p = ObjectId.str 0%N ∧
    ∀ k, field_of p k =
           match ({[ In_stock := VBool false ]} : gmap field value) !! k with
           | Some v => v
           | None => default VNone (widget_fields !! k)
           end.
Proof.
  apply (get_after_update widget_id 0%N widget_fields
           {[ In_stock := VBool false ]} one_widget).
  - reflexivity.
  - reflexivity.
  - apply (bool_decide_unpack (complete widget_fields)). vm_compute. exact I.
  - intros H. by vm_compute in H.
Defined.

(** Sending the same update twice stores what sending it once stores: both
    calls return true, and the second leaves every document as the first
    left it. *)
Theorem update_twice (id : string) (oid : ObjectId.t)
    (fs data : gmap field value) (st : store) :
  ObjectId.parse id = Ok oid →
  docs st !! oid = Some fs →
  data ≠ ∅ →
  ∃ st1 st2,
    update_product id data st = (Ok true, st1) ∧
    update_product id data st1 = (Ok true, st2) ∧
    docs st2 = docs st1.
Proof.
  intros Hid Hfs Hdata.
  exists (after_update oid data fs st),
    (after_update oid data (data ∪ fs) (after_update oid data fs st)).
  split_and!.
  - by rewrite update_product_eq, nonempty_size, Hid, Hfs.
  - rewrite update_product_eq, nonempty_size, Hid by done. simpl.
    by rewrite lookup_insert_eq.
  - simpl. rewrite insert_insert_eq.
    by rewrite (assoc_L (∪)), (idemp_L (∪)).
Qed.

Lemma update_twice_witness :
  ∃ st1 st2,
    update_product widget_id {[ Price := VFloat 2 ]} one_widget
      = (Ok true, st1) ∧
    update_product widget_id {[ Price := VFloat 2 ]} st1 = (Ok true, st2) ∧
    docs st2 = docs st1.
Proof.
  apply (update_twice widget_id 0%N widget_fields
           {[ Price := VFloat 2 ]} one_widget).
  - reflexivity.
  - reflexivity.
  - intros H. by vm_compute in H.
Defined.

(** ** What a request never does *)

(** Whatever the request and its outcome: a GET leaves the collection
    (documents and write history) as it was; a POST neither changes nor
    removes a stored record and adds at most one; a PUT neither adds nor
    removes a record; a DELETE neither adds nor changes a record and removes
    at most one. *)
Theorem request_effects (r : request) (st : store) :
  match r with
  | GET_products | GET_product _ => (handle r st).2 = st
  | POST_product _ =>
      docs st ⊆ docs (handle r st).2 ∧
      (size (docs (handle r st).2) ≤ S (size (docs st)))%nat
  | PUT_product _ _ => dom (docs (handle r st).2) = dom (docs st)
  | DELETE_product _ =>
      docs (handle r st).2 ⊆ docs st ∧
      (size (docs st) ≤ S (size (docs (handle r st).2)))%nat
  end.
Proof.
  destruct r as [|id|payload|id payload|id]; simpl.
  - unfold routes.list_products. by rewrite respond_store.
  - unfold routes.get. by rewrite respond_store, get_product_store.
  - unfold routes.post, with_body.
    destruct (ProductSchema.validate payload) as [product|e].
    + rewrite respond_store. unfold create_product. rewrite add_product_eq.
      simpl. destruct (new_ObjectId_fresh st) as [_ Hfree]. split.
      * by apply insert_subseteq.
      * by rewrite map_size_insert_None.
    + destruct e; simpl; split; (done || lia).
  - unfold routes.put, with_body.
    destruct (ProductUpdateSchema.validate payload) as [product|e].
    + rewrite respond_store. unfold update_existing_product.
      rewrite update_product_eq.
      destruct (size _ <? 1)%nat; [done|].
      destruct (ObjectId.parse id) as [oid|]; [|done].
      destruct (docs st !! oid) as [fs|] eqn:E; [|done].
      simpl. by apply dom_insert_lookup_L.
    + by destruct e.
  - unfold routes.delete, delete_existing_product.
    rewrite respond_store, delete_product_eq.
    destruct (ObjectId.parse id) as [oid|]; [|simpl; split; (done || lia)].
    destruct (docs st !! oid) as [fs|] eqn:E; simpl;
      [|split; (done || lia)].
    split; [apply delete_subseteq|].
    rewrite map_size_delete, E. simpl. lia.
Qed.

(** ** Create requests *)

(** A create request whose price is a number not above zero is answered 422
    with a "not greater than 0" error on [price], and nothing is stored. *)
Theorem post_rejects_nonpositive_price (payload : gmap string json) (x : Q)
    (st : store) :
  payload !! "price" = Some (JNumber x) →
  (x <= 0)%Q →
  ∃ errors,
    routes.post payload st =
      ({| status_code := 422; body := FieldErrors errors |}, st) ∧
    (Price, NotGt0) ∈ errors.
Proof.
  intros Hprice Hx.
  destruct (create_rejects_nonpositive_price _ _ Hprice Hx)
    as (errors & Hinvalid & Hin).
  exists errors. split; [|done].
  unfold routes.post, with_body. by rewrite Hinvalid.
Qed.

Lemma post_rejects_nonpositive_price_witness :
  ∃ errors,
    routes.post {[ "name" := JString "Widget"; "price" := JNumber 0 ]}
      one_widget
      = ({| status_code := 422; body := FieldErrors errors |}, one_widget) ∧
    (Price, NotGt0) ∈ errors.
Proof.
  apply (post_rejects_nonpositive_price
           {[ "name" := JString "Widget"; "price" := JNumber 0 ]} 0 one_widget).
  - reflexivity.
  - by vm_compute.
Defined.

(** The create shape refuses null for [name], [price] and [in_stock] (the
    update shape accepts it): such a request is answered 422 with a "none
    not allowed" error on the field, and nothing is stored. *)
Theorem post_rejects_null (payload : gmap string json) (k : field)
    (st : store) :
  payload !! field_name k = Some JNull →
  k ≠ Description →
  ∃ errors,
    routes.post payload st =
      ({| status_code := 422; body := FieldErrors errors |}, st) ∧
    (k, NoneNotAllowed) ∈ errors.
Proof.
  intros Hk Hne. unfold routes.post, with_body, ProductSchema.validate.
  destruct k; [|done| |].
  - assert (required Name str_type payload = inl (Name, NoneNotAllowed)) as ->.
    { unfold required. by rewrite Hk. }
    eexists. split; [reflexivity|]. simpl. set_solver.
  - assert (gt Price 0 (required Price float_type payload)
              = inl (Price, NoneNotAllowed)) as ->.
    { unfold required. by rewrite Hk. }
    destruct (required Name str_type payload),
      (optional Description str_type payload),
      (with_default In_stock bool_type true payload);
      (eexists; split; [reflexivity|]); simpl; set_solver.
  - assert (with_default In_stock bool_type true payload
              = inl (In_stock, NoneNotAllowed)) as ->.
    { unfold with_default. by rewrite Hk. }
    destruct (required Name str_type payload),
      (optional Description str_type payload),
      (gt Price 0 (required Price float_type payload));
      (eexists; split; [reflexivity|]); simpl; set_solver.
Qed.

Lemma post_rejects_null_witness :
  ∃ errors,
    routes.post {[ "name" := JString "Widget"; "price" := JNumber 5;
                   "in_stock" := JNull ]} one_widget
      = ({| status_code := 422; body := FieldErrors errors |}, one_widget) ∧
    (In_stock, NoneNotAllowed) ∈ errors.
Proof.
  apply (post_rejects_null
           {[ "name" := JString "Widget"; "price" := JNumber 5;
              "in_stock" := JNull ]} In_stock one_widget).
  - reflexivity.
  - intros H. discriminate H.
Defined.

(** ** Update requests *)

(** A PUT whose body names none of the four fields (whatever else it holds)
    is answered [false] and writes nothing, also for an id that does not
    parse: keys outside the update shape are dropped, and the empty field
    set returns before the id is looked at. *)
Theorem put_without_fields (id : string) (payload : gmap string json)
    (st : store) :
  (∀ k, payload !! field_name k = None) →
  routes.put id payload st =
    ({| status_code := 200; body := Bool false |}, st).
Proof.
  intros Hnone.
  assert (ProductUpdateSchema.validate payload = Ok nothing_set) as Hvalid.
  { unfold ProductUpdateSchema.validate, optional.
    by rewrite (Hnone Name), (Hnone Description), (Hnone Price),
      (Hnone In_stock). }
  rewrite (put_valid _ _ _ _ Hvalid). unfold respond.
  by rewrite update_product_eq.
Qed.

Lemma put_without_fields_witness :
  routes.put "abc" {[ "colour" := JString "red" ]} one_widget =
    ({| status_code := 200; body := Bool false |}, one_widget).
Proof.
  apply (put_without_fields "abc" {[ "colour" := JString "red" ]} one_widget).
  intros []; reflexivity.
Defined.

Lemma missing_id_is_not_found_witness :
  routes.get "000000000000000000000001" one_widget =
    ({| status_code := 404; body := Detail "Product not found" |},
     one_widget) ∧
  update_product "000000000000000000000001" {[ Price := VFloat 2 ]} one_widget
    = (Ok false, one_widget) ∧
  delete_product "000000000000000000000001" one_widget
    = (Ok false, one_widget).
Proof.
  apply (missing_id_is_not_found "000000000000000000000001" 1%N
           {[ Price := VFloat 2 ]} one_widget); reflexivity.
Defined.

(** ** The mapper *)

(** [product_helper] needs [name], [price] and [in_stock] and nothing else:
    with the three keys present it returns a dict whose description is the
    stored one, or null when the document has none; with one of them absent
    it raises [KeyError] for an absent key. *)
Theorem mapper_missing_keys (d : document) :
  (complete (fields d) →
     ∃ p, product_helper (Some d) = Ok p ∧
          Product.description p = default VNone (fields d !! Description)) ∧
  (¬ complete (fields d) →
     ∃ k, k ≠ Description ∧ fields d !! k = None ∧
          product_helper (Some d) = Raise (KeyError k)).
Proof.
  unfold complete, product_helper, getitem, get. split.
  - intros ([n ->] & [x ->] & [s ->]). simpl. by eexists.
  - intros Hincomplete.
    destruct (fields d !! Name) as [n|] eqn:Hn; simpl;
      [|by exists Name].
    destruct (fields d !! Price) as [x|] eqn:Hx; simpl;
      [|by exists Price].
    destruct (fields d !! In_stock) as [s|] eqn:Hs; simpl;
      [|by exists In_stock].
    destruct Hincomplete. by rewrite ?Hn, ?Hx, ?Hs.
Qed.

Lemma mapper_missing_keys_witness :
  (∃ p, product_helper (Some {| _id := 0%N; fields := {[ Name := VStr "x";
            Price := VFloat 1; In_stock := VBool true ]} |}) = Ok p ∧
        Product.description p = VNone) ∧
  (∃ k, k ≠ Description ∧
        ({[ Name := VStr "x" ]} : gmap field value) !! k = None ∧
        product_helper (Some {| _id := 0%N; fields := {[ Name := VStr "x" ]} |})
          = Raise (KeyError k)).
Proof.
  split.
  - assert (complete ({[ Name := VStr "x"; Price := VFloat 1;
                         In_stock := VBool true ]} : gmap field value)) as H.
    { apply (bool_decide_unpack (complete _)). vm_compute. exact I. }
    exact (proj1 (mapper_missing_keys
             {| _id := 0%N; fields := {[ Name := VStr "x"; Price := VFloat 1;
                                          In_stock := VBool true ]} |}) H).
  - assert (¬ complete ({[ Name := VStr "x" ]} : gmap field value)) as H.
    { apply (bool_decide_unpack (¬ complete _)). vm_compute. exact I. }
    exact (proj2 (mapper_missing_keys
             {| _id := 0%N; fields := {[ Name := VStr "x" ]} |}) H).
Defined.

(** ** Collections built through the API *)

(** On every collection reached from the empty one by serving requests, the
    list operation returns a list: the mapper never meets a document that
    lacks a key it subscripts. *)
Theorem list_returns_on_served (rs : list request) :
  ∃ ps, retrieve_products (serve rs empty_store).2
          = (Ok ps, (serve rs empty_store).2).
Proof.
  set (st := (serve rs empty_store).2).
  assert (all_complete st) as Hall.
  { apply serve_complete. apply map_Forall_empty. }
  destruct (map_helper_complete
              (merge_sort (doc_le Name) (db_products.documents st)))
    as (ps & Hps & _).
  { rewrite merge_sort_Permutation. by apply documents_complete. }
  exists ps.
  change (retrieve_products st)
    with (map_helper (merge_sort (doc_le Name) (db_products.documents st)), st).
  by rewrite Hps.
Qed.
